(** * python-tox for VS Code: project directory, terminals, tox commands

    A shallow embedding of [src/utils.ts] and [src/extension.ts].

    Strings are sequences of code units; the embedding uses [string] and so
    covers the code units U+0000..U+00FF.  The [path] module is Node's POSIX
    flavour ([path.posix]): the separator is the slash.  Promises are run to
    completion in program order, so [await] is sequencing. *)

From Stdlib Require Import String Ascii List Bool Arith Lia.
Import ListNotations.
Open Scope string_scope.

(** ** JavaScript string primitives used by the extension *)

Module JsString.

(** [s.startsWith(p)], as a structural test. *)
Fixpoint startsWith (p s : string) : bool :=
  match p, s with
  | EmptyString, _ => true
  | String a p', String b s' => Ascii.eqb a b && startsWith p' s'
  | String _ _, EmptyString => false
  end.

(** [s.slice(n)] for [0 <= n]. *)
Fixpoint drop (n : nat) (s : string) : string :=
  match n, s with
  | O, _ => s
  | S _, EmptyString => EmptyString
  | S k, String _ s' => drop k s'
  end.

(** The first occurrence of [pat] in [s]: the text before it and the text
    after it. *)
Fixpoint cut (pat s : string) : option (string * string) :=
  if startsWith pat s then Some (EmptyString, drop (String.length pat) s)
  else match s with
       | EmptyString => None
       | String c s' =>
           match cut pat s' with
           | Some (b, a) => Some (String c b, a)
           | None => None
           end
       end.

(** [s.includes(pat)]. *)
Definition includes (pat s : string) : bool :=
  match cut pat s with Some _ => true | None => false end.

(** GetSubstitution of ECMA-262 for a string pattern: there are no captures,
    so only [$$], [$&], [$`] and [$'] are special in the replacement text. *)
Fixpoint getSubstitution (matched before after repl : string) : string :=
  match repl with
  | EmptyString => EmptyString
  | String c r =>
      if Ascii.eqb c "$" then
        match r with
        | EmptyString => String c EmptyString
        | String d r' =>
            if Ascii.eqb d "$" then String "$" (getSubstitution matched before after r')
            else if Ascii.eqb d "&" then matched ++ getSubstitution matched before after r'
            else if Ascii.eqb d "`" then before ++ getSubstitution matched before after r'
            else if Ascii.eqb d "'" then after ++ getSubstitution matched before after r'
            else String c (getSubstitution matched before after r)
        end
      else String c (getSubstitution matched before after r)
  end.

(** [s.replace(pat, repl)] with a string pattern: the first occurrence only. *)
Definition replace (s pat repl : string) : string :=
  match cut pat s with
  | None => s
  | Some (b, a) => b ++ getSubstitution pat b a repl ++ a
  end.

(** White space and line terminators of ECMA-262 among U+0000..U+00FF. *)
Definition isWhiteSpace (c : ascii) : bool :=
  let n := nat_of_ascii c in
  existsb (Nat.eqb n) [9; 10; 11; 12; 13; 32; 160].

Fixpoint trimStart (s : string) : string :=
  match s with
  | EmptyString => EmptyString
  | String c s' => if isWhiteSpace c then trimStart s' else s
  end.

Fixpoint trimEnd (s : string) : string :=
  match s with
  | EmptyString => EmptyString
  | String c s' =>
      match trimEnd s' with
      | EmptyString => if isWhiteSpace c then EmptyString else String c EmptyString
      | t => String c t
      end
  end.

(** [s.trim()]: white space is removed at both ends. *)
Definition trim (s : string) : string := trimEnd (trimStart s).

(** [s.split(sep)] for a non-empty separator; [fuel] bounds the number of
    cuts. *)
Fixpoint split_fuel (fuel : nat) (sep s : string) : list string :=
  match fuel with
  | O => [s]
  | S f =>
      match cut sep s with
      | None => [s]
      | Some (b, a) => b :: split_fuel f sep a
      end
  end.

(** [s.split("")]: one string per code unit. *)
Fixpoint units (s : string) : list string :=
  match s with
  | EmptyString => []
  | String c s' => String c EmptyString :: units s'
  end.

(** [s.split(sep)]. *)
Definition split (sep s : string) : list string :=
  match sep with
  | EmptyString => units s
  | String _ _ => split_fuel (String.length s) sep s
  end.

(** [xs.join(sep)] on an array of strings. *)
Fixpoint join (sep : string) (xs : list string) : string :=
  match xs with
  | [] => EmptyString
  | [x] => x
  | x :: rest => x ++ sep ++ join sep rest
  end.

(** JavaScript truthiness of a string. *)
Definition truthy (s : string) : bool :=
  match s with EmptyString => false | String _ _ => true end.

End JsString.

(** ** Node's [path] module, POSIX flavour *)

Module PosixPath.

Definition isSlash (c : ascii) : bool := Ascii.eqb c "/".

(** The text between consecutive slashes, in order; never the empty list. *)
Fixpoint segments (s : string) : list string :=
  match s with
  | EmptyString => [EmptyString]
  | String c s' =>
      if isSlash c then EmptyString :: segments s'
      else match segments s' with
           | x :: r => String c x :: r
           | [] => [String c EmptyString]
           end
  end.

(** One step of the loop of [normalizeString], taken at a separator: [stack]
    holds the segments of [res], the last one first. *)
Definition pushSegment (allowAboveRoot : bool) (stack : list string)
    (seg : string) : list string :=
  if seg =? "" then stack
  else if seg =? "." then stack
  else if seg =? ".." then
    match stack with
    | top :: rest =>
        if top =? ".." then (if allowAboveRoot then ".." :: stack else stack)
        else rest
    | [] => if allowAboveRoot then [".."] else []
    end
  else seg :: stack.

Definition normalizeString (path : string) (allowAboveRoot : bool) : string :=
  JsString.join "/"
    (rev (fold_left (pushSegment allowAboveRoot) (segments path) [])).

Definition firstIsSlash (s : string) : bool :=
  match s with
  | EmptyString => false
  | String c _ => isSlash c
  end.

Fixpoint lastIsSlash (s : string) : bool :=
  match s with
  | EmptyString => false
  | String c EmptyString => isSlash c
  | String _ s' => lastIsSlash s'
  end.

(** [path.isAbsolute(p)]. *)
Definition isAbsolute (path : string) : bool := firstIsSlash path.

(** [path.normalize(p)]. *)
Definition normalize (path : string) : string :=
  match path with
  | EmptyString => "."
  | String _ _ =>
      let isAbs := firstIsSlash path in
      let trailingSeparator := lastIsSlash path in
      let p := normalizeString path (negb isAbs) in
      match p with
      | EmptyString =>
          if isAbs then "/" else if trailingSeparator then "./" else "."
      | String _ _ =>
          let p' := if trailingSeparator then p ++ "/" else p in
          if isAbs then "/" ++ p' else p'
      end
  end.

(** [path.join(a, b)]. *)
Definition join (a b : string) : string :=
  match a, b with
  | EmptyString, EmptyString => "."
  | EmptyString, _ => normalize b
  | _, EmptyString => normalize a
  | _, _ => normalize (a ++ "/" ++ b)
  end.

Fixpoint dropWhile (f : ascii -> bool) (l : list ascii) : list ascii :=
  match l with
  | [] => []
  | c :: l' => if f c then dropWhile f l' else l
  end.

(** [path.dirname(p)]: the scan runs from the last code unit down to index 1,
    first over trailing slashes, then over the last segment. *)
Definition dirname (path : string) : string :=
  match path with
  | EmptyString => "."
  | String c0 rest =>
      let hasRoot := isSlash c0 in
      let scan := rev (list_ascii_of_string rest) in
      let scan := dropWhile isSlash scan in
      let scan := dropWhile (fun c => negb (isSlash c)) scan in
      match scan with
      | [] => if hasRoot then "/" else "."
      | _ :: before =>
          match before with
          | [] => if hasRoot then "//" else String c0 EmptyString
          | _ :: _ => String c0 (string_of_list_ascii (rev before))
          end
      end
  end.

End PosixPath.

(** ** The host editor, as far as the extension uses it *)

Module Vscode.

Record Uri := { fsPath : string }.

Record WorkspaceFolder := { uri : Uri }.

(** A terminal session: the handle the host gives out, and the options it was
    created with. *)
Record Terminal := { handle : nat; name : string; cwd : string }.

(** The outcome of the promisified [child_process.exec]. *)
Inductive ExecResult :=
| Resolved (stdout : string)
| Rejected (message : string).

(** What a command reads from the host and the user while it runs:
    [activeTextEditor] is [vscode.window.activeTextEditor?.document.uri],
    [tox_cwd] is [getConfiguration('tox').cwd], [EOL] is [os.EOL], and the two
    quick picks are the user's answers to [showQuickPick] without and with
    [canPickMany]. *)
Record Editor := {
  activeTextEditor : option Uri;
  getWorkspaceFolder : Uri -> option WorkspaceFolder;
  tox_cwd : option string;
  EOL : string;
  exec : string -> string -> ExecResult;
  showQuickPick : list string -> option string;
  showQuickPickMany : list string -> option (list string)
}.

(** What a command changes: the terminal registry, what was shown and sent to
    terminals, the error messages shown and the console. *)
Record Window := {
  terminals : list Terminal;
  nextHandle : nat;
  shown : list (nat * bool);
  sent : list (nat * string);
  errorMessages : list string;
  console : list string
}.

Inductive Outcome (A : Type) :=
| Returned (a : A)
| Thrown (message : string).
Arguments Returned {A} a.
Arguments Thrown {A} message.

(** A computation on the window that returns or throws. *)
Definition Cmd (A : Type) : Type := Window -> Outcome A * Window.

Definition ret {A} (a : A) : Cmd A := fun w => (Returned a, w).

Definition throw {A} (message : string) : Cmd A := fun w => (Thrown message, w).

Definition bind {A B} (c : Cmd A) (k : A -> Cmd B) : Cmd B :=
  fun w =>
    match c w with
    | (Returned a, w') => k a w'
    | (Thrown m, w') => (Thrown m, w')
    end.

Definition catch {A} (c : Cmd A) (handler : string -> Cmd A) : Cmd A :=
  fun w =>
    match c w with
    | (Returned a, w') => (Returned a, w')
    | (Thrown m, w') => handler m w'
    end.

Definition console_log (line : string) : Cmd unit :=
  fun w =>
    (Returned tt,
     {| terminals := terminals w; nextHandle := nextHandle w;
        shown := shown w; sent := sent w;
        errorMessages := errorMessages w;
        console := console w ++ [line] |}).

Definition showErrorMessage (message : string) : Cmd unit :=
  fun w =>
    (Returned tt,
     {| terminals := terminals w; nextHandle := nextHandle w;
        shown := shown w; sent := sent w;
        errorMessages := errorMessages w ++ [message];
        console := console w |}).

(** [vscode.window.createTerminal({cwd, name})]: a session with a handle no
    session had before joins the registry. *)
Definition createTerminal (cwd name : string) : Cmd Terminal :=
  fun w =>
    let t := {| handle := nextHandle w; name := name; cwd := cwd |} in
    (Returned t,
     {| terminals := terminals w ++ [t]; nextHandle := S (nextHandle w);
        shown := shown w; sent := sent w;
        errorMessages := errorMessages w;
        console := console w |}).

(** [term.show(preserveFocus)]. *)
Definition show (term : Terminal) (preserveFocus : bool) : Cmd unit :=
  fun w =>
    (Returned tt,
     {| terminals := terminals w; nextHandle := nextHandle w;
        shown := shown w ++ [(handle term, preserveFocus)]; sent := sent w;
        errorMessages := errorMessages w;
        console := console w |}).

(** [term.sendText(text)]. *)
Definition sendText (term : Terminal) (text : string) : Cmd unit :=
  fun w =>
    (Returned tt,
     {| terminals := terminals w; nextHandle := nextHandle w;
        shown := shown w; sent := sent w ++ [(handle term, text)];
        errorMessages := errorMessages w;
        console := console w |}).

(** [vscode.window.terminals]. *)
Definition getTerminals : Cmd (list Terminal) :=
  fun w => (Returned (terminals w), w).

End Vscode.

Import Vscode.

Declare Scope cmd_scope.
Delimit Scope cmd_scope with cmd.
Notation "x <- c ;; k" := (bind c (fun x => k))
  (at level 61, c at next level, right associativity) : cmd_scope.
Notation "c ;;; k" := (bind c (fun _ => k))
  (at level 61, right associativity) : cmd_scope.
Open Scope cmd_scope.

(** ** [src/utils.ts] *)

Module Utils.

(** The local variable [toxRootFolder] of [findProjectDir] after its two
    assignments, for the template [cwd], the workspace folder's path and the
    document's path. *)
Definition toxRootFolder (cwd workspacePath docPath : string) : string :=
  let toxRootFolder :=
    JsString.replace cwd "${workspaceFolder}" workspacePath in
  let toxRootFolder :=
    JsString.replace cwd "${fileWorkspaceFolder}" (PosixPath.dirname docPath) in
  toxRootFolder.

Definition findProjectDir (e : Editor) : Cmd string :=
  match activeTextEditor e with
  | None => throw "No active editor found."
  | Some docUri =>
      let configuration_cwd := tox_cwd e in
      match getWorkspaceFolder e docUri with
      | None =>
          let docPath := fsPath docUri in
          let docDir := PosixPath.dirname docPath in
          console_log ("tox doc path: " ++ docPath ++ " -> " ++ docDir) ;;;
          ret docDir
      | Some workspaceFolder =>
          let folder := fsPath (uri workspaceFolder) in
          let folder :=
            match configuration_cwd with
            | Some cwd =>
                if JsString.truthy cwd then
                  let toxRootFolder :=
                    toxRootFolder cwd (fsPath (uri workspaceFolder))
                      (fsPath docUri) in
                  if negb (PosixPath.isAbsolute toxRootFolder) then
                    PosixPath.join (fsPath (uri workspaceFolder)) toxRootFolder
                  else toxRootFolder
                else folder
            | None => folder
            end in
          let folder := PosixPath.normalize folder in
          console_log ("tox workspace folder: " ++ folder) ;;;
          ret folder
      end
  end.

(** [getTerminal(projDir = findProjectDir(), name = "tox")]: an argument left
    out is [None], and its default is evaluated at the call. *)
Definition getTerminal (e : Editor) (projDir name : option string)
    : Cmd Terminal :=
  projDir <- match projDir with
             | Some d => ret d
             | None => findProjectDir e
             end ;;
  let name := match name with Some n => n | None => "tox" end in
  terminals <- getTerminals ;;
  match find (fun terminal => Vscode.name terminal =? name) terminals with
  | Some terminal => ret terminal
  | None => createTerminal projDir name
  end.

End Utils.

(** ** [src/extension.ts] *)

Module Extension.

Definition findProjectDir (e : Editor) : Cmd string :=
  match activeTextEditor e with
  | None => throw "No active editor found."
  | Some docUri =>
      match getWorkspaceFolder e docUri with
      | Some workspace =>
          let folder := fsPath (uri workspace) in
          console_log ("tox workspace folder: " ++ folder) ;;;
          ret folder
      | None =>
          let docPath := fsPath docUri in
          let docDir := PosixPath.dirname docPath in
          console_log ("tox doc path: " ++ docPath ++ " -> " ++ docDir) ;;;
          ret docDir
      end
  end.

Definition getToxEnvs (e : Editor) (projDir : string) : Cmd (list string) :=
  match exec e "tox -a" projDir with
  | Rejected message => throw message
  | Resolved stdout => ret (JsString.split (EOL e) (JsString.trim stdout))
  end.

(** The result is [None] for JavaScript's [undefined]. *)
Definition safeGetToxEnvs (e : Editor) (projDir : string)
    : Cmd (option (list string)) :=
  catch (envs <- getToxEnvs e projDir ;; ret (Some envs))
        (fun message => showErrorMessage message ;;; ret None).

Definition runTox (envs : list string) (projDir : string) : Cmd unit :=
  term <- createTerminal projDir "tox" ;;
  let envArg := JsString.join "," envs in
  show term true ;;;
  sendText term ("tox -e " ++ envArg).

Definition selectCommand (e : Editor) : Cmd unit :=
  projDir <- findProjectDir e ;;
  envs <- safeGetToxEnvs e projDir ;;
  match envs with
  | None => ret tt
  | Some envs =>
      match showQuickPick e envs with
      | None => ret tt
      | Some selected =>
          if negb (JsString.truthy selected) then ret tt
          else runTox [selected] projDir
      end
  end.

(** An array is truthy in JavaScript, the empty one too: [!selected] holds
    for [undefined] only. *)
Definition selectMultipleCommand (e : Editor) : Cmd unit :=
  projDir <- findProjectDir e ;;
  envs <- safeGetToxEnvs e projDir ;;
  match envs with
  | None => ret tt
  | Some envs =>
      match showQuickPickMany e envs with
      | None => ret tt
      | Some selected => runTox selected projDir
      end
  end.

End Extension.

(** ** Observations and sample hosts *)

(** What a computation returns or throws, and the window it leaves. *)
Definition outcome {A} (c : Cmd A) (w : Window) : Outcome A := fst (c w).
Definition window {A} (c : Cmd A) (w : Window) : Window := snd (c w).

(** The configuration holds an override template the code acts on. *)
Definition overridePresent (e : Editor) : bool :=
  match tox_cwd e with
  | Some cwd => JsString.truthy cwd
  | None => false
  end.

(** A path is normalized when [path.normalize] leaves it as it is. *)
Definition normalized (p : string) : Prop := PosixPath.normalize p = p.

Fixpoint slashFree (s : string) : bool :=
  match s with
  | EmptyString => true
  | String c s' => negb (PosixPath.isSlash c) && slashFree s'
  end.

(** A directory or file name: not empty, no slash, neither [.] nor [..]. *)
Definition properSegment (s : string) : bool :=
  slashFree s && negb (s =? "") && negb (s =? ".") && negb (s =? "..").

(** The stacks [normalizeString] builds, last segment first: names, below
    them [..] segments, which only a relative path keeps. *)
Definition cleanStack (allowAboveRoot : bool) (st : list string) : Prop :=
  exists names k,
    st = (names ++ repeat ".." k)%list
    /\ Forall (fun x => properSegment x = true) names
    /\ (allowAboveRoot = false -> k = 0).

(** Handles given out so far are below the next one. *)
Definition handlesBelowNext (w : Window) : Prop :=
  Forall (fun t => handle t < nextHandle w) (terminals w).

(** [n] runs of [runTox] in a row. *)
Fixpoint runToxTimes (n : nat) (envs : list string) (projDir : string)
    : Cmd unit :=
  match n with
  | O => ret tt
  | S k => Extension.runTox envs projDir ;;; runToxTimes k envs projDir
  end.

Module Samples.

Definition lf : string := String "010" EmptyString.

Definition emptyWindow : Window :=
  {| terminals := []; nextHandle := 0; shown := []; sent := [];
     errorMessages := []; console := [] |}.

(** A window in which a terminal called tox is open already. *)
Definition toxWindow : Window :=
  {| terminals := [ {| handle := 0; name := "bash"; cwd := "/home/u" |};
                    {| handle := 1; name := "tox"; cwd := "/home/u/old" |} ];
     nextHandle := 2; shown := []; sent := [];
     errorMessages := []; console := [] |}.

Definition projectRoot : WorkspaceFolder :=
  {| uri := {| fsPath := "/home/u/proj" |} |}.

Definition toxOutput : string := "py39" ++ lf ++ "py310" ++ lf ++ "lint" ++ lf.

(** A file of the workspace folder /home/u/proj is focused; tox lists three
    environments; the user makes the given picks. *)
Definition workspaceEditor (cwd : option string) (pick : option string)
    (picks : option (list string)) : Editor :=
  {| activeTextEditor := Some {| fsPath := "/home/u/proj/tests/test_a.py" |};
     getWorkspaceFolder := fun _ => Some projectRoot;
     tox_cwd := cwd;
     EOL := lf;
     exec := fun _ _ => Resolved toxOutput;
     showQuickPick := fun _ => pick;
     showQuickPickMany := fun _ => picks |}.

(** A file outside every workspace folder is focused. *)
Definition looseFileEditor (docPath : string) : Editor :=
  {| activeTextEditor := Some {| fsPath := docPath |};
     getWorkspaceFolder := fun _ => None;
     tox_cwd := None;
     EOL := lf;
     exec := fun _ _ => Resolved toxOutput;
     showQuickPick := fun _ => None;
     showQuickPickMany := fun _ => None |}.

(** The editor of [workspaceEditor] on a host whose line separator is [eol]
    and where tox prints [stdout]. *)
Definition outputEditor (eol stdout : string) : Editor :=
  {| activeTextEditor := Some {| fsPath := "/home/u/proj/tests/test_a.py" |};
     getWorkspaceFolder := fun _ => Some projectRoot;
     tox_cwd := None;
     EOL := eol;
     exec := fun _ _ => Resolved stdout;
     showQuickPick := fun _ => None;
     showQuickPickMany := fun _ => None |}.

(** No document is focused. *)
Definition noDocumentEditor : Editor :=
  {| activeTextEditor := None;
     getWorkspaceFolder := fun _ => Some projectRoot;
     tox_cwd := Some "sub";
     EOL := lf;
     exec := fun _ _ => Resolved toxOutput;
     showQuickPick := fun l => hd_error l;
     showQuickPickMany := fun l => Some l |}.

End Samples.

(** ** The test tree of [activate] in [src/extension.ts] *)

Module TestTree.

(** A URI as the test tree reads it: [uri.scheme], [uri.path] and
    [uri.toString()]; the resolver above reads [uri.fsPath] only. *)
Record Uri := { scheme : string; path : string; toString : string }.

Record TextDocument := { uri : Uri; getText : string }.

(** A test item: [item.uri] is [None] for [undefined]. *)
Record TestItem := {
  id : string;
  label : string;
  itemUri : option Uri;
  canResolveChildren : bool
}.

(** [new vscode.RelativePattern(workspaceFolder, pattern)]. *)
Record RelativePattern := { base : WorkspaceFolder; pattern : string }.

(** What the test tree reads from the host: [vscode.workspace.workspaceFolders],
    [None] for [undefined], and the result of [vscode.workspace.findFiles]. *)
Record Workspace := {
  workspaceFolders : option (list WorkspaceFolder);
  findFiles : RelativePattern -> list Uri
}.

(** What the test tree changes: [controller.items], in insertion order, and
    the file system watchers created so far, each by its pattern. *)
Record Controller := {
  items : list TestItem;
  watchers : list RelativePattern
}.

(** [s.endsWith(suffix)]. *)
Definition endsWith (s suffix : string) : bool :=
  Nat.leb (String.length suffix) (String.length s)
  && JsString.startsWith suffix
       (JsString.drop (String.length s - String.length suffix) s).

(** [xs.pop()!] on the array a split returns. *)
Definition pop (xs : list string) : string := last xs EmptyString.

(** [controller.items.get(id)]. *)
Definition get (i : string) (l : list TestItem) : option TestItem :=
  find (fun t => id t =? i) l.

(** [controller.items.add(item)]: an item with the same id is replaced. *)
Fixpoint add (item : TestItem) (l : list TestItem) : list TestItem :=
  match l with
  | [] => [item]
  | t :: r => if id t =? id item then item :: r else t :: add item r
  end.

(** [controller.items.delete(id)]. *)
Definition delete (i : string) (l : list TestItem) : list TestItem :=
  filter (fun t => negb (id t =? i)) l.

(** An assignment to a field of an item the collection holds: the collection
    shows the item as it is after the assignment. *)
Definition assign (item : TestItem) (l : list TestItem) : list TestItem :=
  map (fun t => if id t =? id item then item else t) l.

(** [controller.createTestItem(id, label, uri)]. *)
Definition createTestItem (i l : string) (u : option Uri) : TestItem :=
  {| id := i; label := l; itemUri := u; canResolveChildren := false |}.

Definition getOrCreateFile (u : Uri) (c : Controller) : TestItem * Controller :=
  match get (toString u) (items c) with
  | Some existing => (existing, c)
  | None =>
      let file :=
        createTestItem (toString u) (pop (JsString.split "/" (path u)))
          (Some u) in
      let items1 := add file (items c) in
      let file :=
        {| id := id file; label := label file; itemUri := itemUri file;
           canResolveChildren := true |} in
      (file, {| items := assign file items1; watchers := watchers c |})
  end.

(** [contents] is not read. *)
Definition parseTestsInFileContents (file : TestItem) (contents : option string)
    (c : Controller) : Controller :=
  let newTestItem := createTestItem "cowsay" "cowsay" (itemUri file) in
  {| items := add newTestItem (items c); watchers := watchers c |}.

(** [parseTestsInDocument(e, filename = 'tox.ini')]. *)
Definition parseTestsInDocument (e : TextDocument) (filename : option string)
    (c : Controller) : Controller :=
  let filename := match filename with Some f => f | None => "tox.ini" end in
  if (scheme (uri e) =? "file") && endsWith (path (uri e)) filename then
    let (file, c) := getOrCreateFile (uri e) c in
    parseTestsInFileContents file (Some (getText e)) c
  else c.

(** The three handlers [discoverAllFilesInWorkspace] registers on a
    watcher. *)
Inductive WatcherEvent :=
| DidCreate (u : Uri)
| DidChange (u : Uri)
| DidDelete (u : Uri).

Definition onWatcherEvent (ev : WatcherEvent) (c : Controller) : Controller :=
  match ev with
  | DidCreate u => snd (getOrCreateFile u c)
  | DidChange u =>
      let (file, c) := getOrCreateFile u c in
      parseTestsInFileContents file None c
  | DidDelete u =>
      {| items := delete (toString u) (items c); watchers := watchers c |}
  end.

(** The body of the function mapped over the workspace folders. *)
Definition discoverFolder (ws : Workspace) (workspaceFolder : WorkspaceFolder)
    (c : Controller) : RelativePattern * Controller :=
  let pattern := {| base := workspaceFolder; pattern := "tox.ini" |} in
  let watcher := pattern in
  let c := {| items := items c; watchers := watchers c ++ [watcher] |} in
  (watcher,
   fold_left (fun c file => snd (getOrCreateFile file c))
     (findFiles ws pattern) c).

(** The folders are taken one after the other; the order in which the
    searches end changes the order of the items only. *)
Fixpoint discoverFolders (ws : Workspace) (folders : list WorkspaceFolder)
    (c : Controller) : list RelativePattern * Controller :=
  match folders with
  | [] => ([], c)
  | f :: rest =>
      let (w, c) := discoverFolder ws f c in
      let (wl, c) := discoverFolders ws rest c in
      (w :: wl, c)
  end.

Definition discoverAllFilesInWorkspace (ws : Workspace) (c : Controller)
    : list RelativePattern * Controller :=
  match workspaceFolders ws with
  | None => ([], c)
  | Some folders => discoverFolders ws folders c
  end.

(** [controller.resolveHandler]: [test] is [None] for [undefined]. *)
Definition resolveHandler (ws : Workspace) (test : option TestItem)
    (c : Controller) : Controller :=
  match test with
  | None => snd (discoverAllFilesInWorkspace ws c)
  | Some test => parseTestsInFileContents test None c
  end.

(** [vscode.workspace.onDidOpenTextDocument(parseTestsInDocument)]. *)
Definition onDidOpenTextDocument (e : TextDocument) (c : Controller)
    : Controller :=
  parseTestsInDocument e None c.

(** [onDidChangeTextDocument(e => parseTestsInDocument(e.document))]. *)
Definition onDidChangeTextDocument (document : TextDocument) (c : Controller)
    : Controller :=
  parseTestsInDocument document None c.

End TestTree.

(** The events that reach the test tree after activation. *)
Inductive TreeEvent :=
| Opened (e : TestTree.TextDocument)
| Changed (e : TestTree.TextDocument)
| Watched (ev : TestTree.WatcherEvent)
| Resolve (test : option TestTree.TestItem).

Definition treeStep (ws : TestTree.Workspace) (c : TestTree.Controller)
    (ev : TreeEvent) : TestTree.Controller :=
  match ev with
  | Opened e => TestTree.onDidOpenTextDocument e c
  | Changed e => TestTree.onDidChangeTextDocument e c
  | Watched ev => TestTree.onWatcherEvent ev c
  | Resolve test => TestTree.resolveHandler ws test c
  end.

(** No two items of the collection have one id. *)
Definition uniqueIds (c : TestTree.Controller) : Prop :=
  NoDup (map TestTree.id (TestTree.items c)).

(** The search for tox.ini in the folder [f] finds [u]. *)
Definition foundBy (ws : TestTree.Workspace) (f : WorkspaceFolder)
    (u : TestTree.Uri) : Prop :=
  In u (TestTree.findFiles ws
          {| TestTree.base := f; TestTree.pattern := "tox.ini" |}).

(** A saved document with the path [p], and a tree without items. *)
Definition fileDocument (p : string) : TestTree.TextDocument :=
  {| TestTree.uri :=
       {| TestTree.scheme := "file"; TestTree.path := p;
          TestTree.toString := "file://" ++ p |};
     TestTree.getText := "[tox]" |}.

Definition emptyController : TestTree.Controller :=
  {| TestTree.items := []; TestTree.watchers := [] |}.

(** A workspace of the folder /home/u/proj, in which the search finds
    /home/u/proj/tox.ini. *)
Definition projectWorkspace : TestTree.Workspace :=
  {| TestTree.workspaceFolders := Some [Samples.projectRoot];
     TestTree.findFiles := fun _ => [TestTree.uri (fileDocument "/home/u/proj/tox.ini")] |}.

(** The editor [e] with another [tox.cwd] setting. *)
Definition withCwd (e : Editor) (cwd : option string) : Editor :=
  {| activeTextEditor := activeTextEditor e;
     getWorkspaceFolder := getWorkspaceFolder e;
     tox_cwd := cwd;
     EOL := EOL e;
     exec := exec e;
     showQuickPick := showQuickPick e;
     showQuickPickMany := showQuickPickMany e |}.


(** A file of the workspace folder /home/u/proj is focused and tox cannot be
    run. *)
Definition failingEditor (message : string) : Editor :=
  {| activeTextEditor := Some {| fsPath := "/home/u/proj/a.py" |};
     getWorkspaceFolder := fun _ => Some Samples.projectRoot;
     tox_cwd := None;
     EOL := Samples.lf;
     exec := fun _ _ => Rejected message;
     showQuickPick := fun l => hd_error l;
     showQuickPickMany := fun l => Some l |}.

(** [n] calls of [getTerminal] for one name, with the directories [dirs]. *)
Fixpoint getTerminalEach (e : Editor) (dirs : list string) (name0 : string)
    : Cmd unit :=
  match dirs with
  | [] => ret tt
  | d :: rest =>
      Utils.getTerminal e (Some d) (Some name0) ;;;
      getTerminalEach e rest name0
  end.

(** Every code unit of the string is white space. *)
Fixpoint allWhiteSpace (s : string) : bool :=
  match s with
  | EmptyString => true
  | String c s' => JsString.isWhiteSpace c && allWhiteSpace s'
  end.


(** ** The path functions on the examples of Node's documentation *)

Example normalize_doc_example :
  PosixPath.normalize "/foo/bar//baz/asdf/quux/.." = "/foo/bar/baz/asdf".
Proof. reflexivity. Qed.

Example normalize_relative_examples :
  PosixPath.normalize "../../a/../b/" = "../../b/"
  /\ PosixPath.normalize "a/.." = "."
  /\ PosixPath.normalize "a/../" = "./"
  /\ PosixPath.normalize "/../a/./b/../.." = "/"
  /\ PosixPath.normalize "" = ".".
Proof. repeat split. Qed.

Example join_doc_example :
  PosixPath.join "/foo" "bar/baz/asdf/quux/.." = "/foo/bar/baz/asdf".
Proof. reflexivity. Qed.

Example dirname_doc_example :
  PosixPath.dirname "/foo/bar/baz/asdf/quux" = "/foo/bar/baz/asdf".
Proof. reflexivity. Qed.

Example dirname_edge_examples :
  PosixPath.dirname "/a/b/" = "/a"
  /\ PosixPath.dirname "/a" = "/"
  /\ PosixPath.dirname "a" = "."
  /\ PosixPath.dirname "//a" = "//"
  /\ PosixPath.dirname "/a//b" = "/a/"
  /\ PosixPath.dirname "" = ".".
Proof. repeat split. Qed.

Example replace_examples :
  JsString.replace "a-b-a" "a" "x" = "x-b-a"
  /\ JsString.replace "a-b" "b" "[$&|$$|$`|$']" = "a-[b|$|a-|]"
  /\ JsString.replace "a-b" "c" "x" = "a-b".
Proof. repeat split. Qed.

Example trim_split_examples :
  JsString.trim (" a b " ++ Samples.lf) = "a b"
  /\ JsString.split "," "a,,b," = ["a"; ""; "b"; ""]
  /\ JsString.split "," "" = [""]
  /\ JsString.split "" "ab" = ["a"; "b"].
Proof. repeat split. Qed.

(** ** The resolver without a focused document *)

(** C8. Without a focused document both [findProjectDir] functions throw
    "No active editor found." and return no path, and the two commands end
    with that failure uncaught, leaving the window as it was; with a focused
    document both functions return a path. *)
Theorem C8_no_active_document :
  forall (e : Editor) (w : Window),
    (activeTextEditor e = None ->
       Utils.findProjectDir e w = (Thrown "No active editor found.", w)
       /\ Extension.findProjectDir e w = (Thrown "No active editor found.", w)
       /\ (forall p, outcome (Utils.findProjectDir e) w <> Returned p)
       /\ Extension.selectCommand e w = (Thrown "No active editor found.", w)
       /\ Extension.selectMultipleCommand e w
          = (Thrown "No active editor found.", w))
    /\ (forall doc, activeTextEditor e = Some doc ->
          (exists p, outcome (Utils.findProjectDir e) w = Returned p)
          /\ (exists p, outcome (Extension.findProjectDir e) w = Returned p)).
Proof.
  intros e w. split.
  - intros Hnone.
    unfold Extension.selectCommand, Extension.selectMultipleCommand, bind,
      outcome, Utils.findProjectDir, Extension.findProjectDir.
    rewrite Hnone. cbn. repeat split. intros p Hp. discriminate Hp.
  - intros doc Hdoc.
    unfold outcome, Utils.findProjectDir, Extension.findProjectDir.
    rewrite Hdoc.
    destruct (getWorkspaceFolder e doc) as [f|]; cbn; split; eexists; reflexivity.
Qed.

Lemma C8_no_active_document_witness :
  (activeTextEditor Samples.noDocumentEditor = None
   /\ Utils.findProjectDir Samples.noDocumentEditor Samples.toxWindow
      = (Thrown "No active editor found.", Samples.toxWindow))
  /\ (activeTextEditor (Samples.looseFileEditor "/tmp/a.py")
      = Some {| fsPath := "/tmp/a.py" |}
      /\ exists p,
           outcome (Utils.findProjectDir (Samples.looseFileEditor "/tmp/a.py"))
             Samples.emptyWindow = Returned p).
Proof.
  split.
  - split; [reflexivity|].
    apply (C8_no_active_document Samples.noDocumentEditor Samples.toxWindow).
    reflexivity.
  - split; [reflexivity|].
    apply (C8_no_active_document (Samples.looseFileEditor "/tmp/a.py")
             Samples.emptyWindow) with (doc := {| fsPath := "/tmp/a.py" |}).
    reflexivity.
Defined.

(** ** Running environments *)

Lemma runTox_eq (envs : list string) (projDir : string) (w : Window) :
  Extension.runTox envs projDir w
  = (Returned tt,
     {| terminals := terminals w
          ++ [ {| handle := nextHandle w; name := "tox"; cwd := projDir |} ];
        nextHandle := S (nextHandle w);
        shown := shown w ++ [(nextHandle w, true)];
        sent := sent w
          ++ [(nextHandle w, "tox -e " ++ JsString.join "," envs)];
        errorMessages := errorMessages w;
        console := console w |}).
Proof. reflexivity. Qed.

(** C9. [runTox] sends one text to the terminal it opened: "tox -e " followed
    by the environment names joined with commas.  For the single environment
    py39 the text is "tox -e py39", for py39 and lint it is
    "tox -e py39,lint"; the select command sends the former when the user
    picks py39. *)
Theorem C9_runTox_text :
  forall (envs : list string) (projDir : string) (w : Window),
    sent (window (Extension.runTox envs projDir) w)
    = (sent w ++ [(nextHandle w, ("tox -e " ++ JsString.join "," envs)%string)])%list
    /\ sent (window (Extension.runTox ["py39"] projDir) w)
       = (sent w ++ [(nextHandle w, "tox -e py39")])%list
    /\ sent (window (Extension.runTox ["py39"; "lint"] projDir) w)
       = (sent w ++ [(nextHandle w, "tox -e py39,lint")])%list
    /\ sent (window (Extension.selectCommand
                       (Samples.workspaceEditor None (Some "py39") None)) w)
       = (sent w ++ [(nextHandle w, "tox -e py39")])%list
    /\ sent (window (Extension.selectMultipleCommand
                       (Samples.workspaceEditor None None
                          (Some ["py39"; "lint"]))) w)
       = (sent w ++ [(nextHandle w, "tox -e py39,lint")])%list.
Proof.
  intros envs projDir w. unfold window.
  rewrite !runTox_eq. repeat split; reflexivity.
Qed.

Lemma runToxTimes_terminals (n : nat) (envs : list string) (projDir : string) :
  forall w,
    outcome (runToxTimes n envs projDir) w = Returned tt
    /\ length (terminals (window (runToxTimes n envs projDir) w))
       = n + length (terminals w)
    /\ length (filter (fun t => name t =? "tox")
                 (terminals (window (runToxTimes n envs projDir) w)))
       = n + length (filter (fun t => name t =? "tox") (terminals w)).
Proof.
  induction n as [|n IH]; intros w.
  - repeat split.
  - unfold outcome, window in *. cbn [runToxTimes]. unfold bind.
    rewrite runTox_eq.
    match goal with |- context [runToxTimes n envs projDir ?w1] =>
      destruct (IH w1) as (Ho & Hl & Hf) end.
    split; [exact Ho|]. cbn [terminals] in Hl, Hf. split.
    + rewrite Hl, length_app. cbn. lia.
    + rewrite Hf, filter_app, length_app. cbn. lia.
Qed.

Lemma select_runs_or_not (e : Editor) (w : Window) :
  (terminals (window (Extension.selectCommand e) w) = terminals w
   /\ sent (window (Extension.selectCommand e) w) = sent w)
  \/ exists projDir envArg,
       terminals (window (Extension.selectCommand e) w)
       = (terminals w
          ++ [ {| handle := nextHandle w; name := "tox";
                  cwd := projDir |} ])%list
       /\ sent (window (Extension.selectCommand e) w)
          = (sent w ++ [(nextHandle w, ("tox -e " ++ envArg)%string)])%list.
Proof.
  unfold window, Extension.selectCommand, Extension.findProjectDir,
    Extension.safeGetToxEnvs, Extension.getToxEnvs, bind, catch.
  destruct (activeTextEditor e) as [doc|]; [|left; split; reflexivity].
  destruct (getWorkspaceFolder e doc) as [f|]; cbn;
    (match goal with |- context [exec e ?c ?d] => destruct (exec e c d) end;
     cbn; [|left; split; reflexivity];
     match goal with |- context [showQuickPick e ?l] =>
       destruct (showQuickPick e l) as [s|] end;
     [|left; split; reflexivity];
     destruct s; cbn; [left; split; reflexivity|];
     right; eexists; eexists; split; reflexivity).
Qed.

Lemma selectMultiple_runs_or_not (e : Editor) (w : Window) :
  (terminals (window (Extension.selectMultipleCommand e) w) = terminals w
   /\ sent (window (Extension.selectMultipleCommand e) w) = sent w)
  \/ exists projDir envArg,
       terminals (window (Extension.selectMultipleCommand e) w)
       = (terminals w
          ++ [ {| handle := nextHandle w; name := "tox";
                  cwd := projDir |} ])%list
       /\ sent (window (Extension.selectMultipleCommand e) w)
          = (sent w ++ [(nextHandle w, ("tox -e " ++ envArg)%string)])%list.
Proof.
  unfold window, Extension.selectMultipleCommand, Extension.findProjectDir,
    Extension.safeGetToxEnvs, Extension.getToxEnvs, bind, catch.
  destruct (activeTextEditor e) as [doc|]; [|left; split; reflexivity].
  destruct (getWorkspaceFolder e doc) as [f|]; cbn;
    (match goal with |- context [exec e ?c ?d] => destruct (exec e c d) end;
     cbn; [|left; split; reflexivity];
     match goal with |- context [showQuickPickMany e ?l] =>
       destruct (showQuickPickMany e l) as [s|] end;
     [|left; split; reflexivity];
     right; eexists; eexists; split; reflexivity).
Qed.

(** C10. Each [runTox] appends one new session named tox and bound to the
    given directory to the registry, also when a session named tox is open
    already; its handle is that of no session of a registry whose handles
    are below the next one.  [n] runs leave [n] more sessions named tox.
    Whenever one of the two commands sends text, it has opened such a new
    session: no run reuses a session. *)
Theorem C10_runTox_always_creates :
  forall (envs : list string) (projDir : string) (w : Window),
    terminals (window (Extension.runTox envs projDir) w)
    = (terminals w
          ++ [ {| handle := nextHandle w; name := "tox";
                  cwd := projDir |} ])%list
    /\ (handlesBelowNext w ->
        forall t, In t (terminals w) -> handle t <> nextHandle w)
    /\ (forall n,
          length (filter (fun t => name t =? "tox")
                    (terminals (window (runToxTimes n envs projDir) w)))
          = n + length (filter (fun t => name t =? "tox") (terminals w)))
    /\ (forall e,
          (terminals (window (Extension.selectCommand e) w) = terminals w
           /\ sent (window (Extension.selectCommand e) w) = sent w)
          \/ exists dir envArg,
               terminals (window (Extension.selectCommand e) w)
               = (terminals w
          ++ [ {| handle := nextHandle w; name := "tox";
                  cwd := dir |} ])%list
               /\ sent (window (Extension.selectCommand e) w)
                  = (sent w ++ [(nextHandle w, ("tox -e " ++ envArg)%string)])%list)
    /\ (forall e,
          (terminals (window (Extension.selectMultipleCommand e) w)
           = terminals w
           /\ sent (window (Extension.selectMultipleCommand e) w) = sent w)
          \/ exists dir envArg,
               terminals (window (Extension.selectMultipleCommand e) w)
               = (terminals w
          ++ [ {| handle := nextHandle w; name := "tox";
                  cwd := dir |} ])%list
               /\ sent (window (Extension.selectMultipleCommand e) w)
                  = (sent w ++ [(nextHandle w, ("tox -e " ++ envArg)%string)])%list).
Proof.
  intros envs projDir w. split; [reflexivity|]. split.
  - intros Hbelow t Hin. unfold handlesBelowNext in Hbelow.
    rewrite Forall_forall in Hbelow. specialize (Hbelow t Hin). lia.
  - split; [intros n; apply runToxTimes_terminals|].
    split; intros e; [apply select_runs_or_not|apply selectMultiple_runs_or_not].
Qed.

Lemma C10_runTox_always_creates_witness :
  handlesBelowNext Samples.toxWindow
  /\ terminals (window (Extension.runTox ["py39"] "/home/u/proj")
                  Samples.toxWindow)
     = [ {| handle := 0; name := "bash"; cwd := "/home/u" |};
         {| handle := 1; name := "tox"; cwd := "/home/u/old" |};
         {| handle := 2; name := "tox"; cwd := "/home/u/proj" |} ]
  /\ forall t, In t (terminals Samples.toxWindow) -> handle t <> 2.
Proof.
  assert (Hb : handlesBelowNext Samples.toxWindow).
  { unfold handlesBelowNext. cbn. repeat constructor. }
  split; [exact Hb|].
  destruct (C10_runTox_always_creates ["py39"] "/home/u/proj"
              Samples.toxWindow) as (Ht & Hfresh & _).
  split; [exact Ht|].
  exact (Hfresh Hb).
Defined.

(** ** The terminal provider *)

Lemma find_first_named (name0 : string) (pre post : list Terminal)
    (t : Terminal) :
  name t = name0 ->
  (forall t', In t' pre -> name t' <> name0) ->
  find (fun terminal => name terminal =? name0) (pre ++ t :: post) = Some t.
Proof.
  intros Ht Hpre. induction pre as [|x pre IH]; cbn.
  - rewrite Ht, String.eqb_refl. reflexivity.
  - destruct (String.eqb_spec (name x) name0) as [Heq|Hne].
    + exfalso. apply (Hpre x); [left; reflexivity|exact Heq].
    + apply IH. intros t' Hin. apply Hpre. right. exact Hin.
Qed.

Lemma find_none_named (name0 : string) (l : list Terminal) :
  (forall t, In t l -> name t <> name0) ->
  find (fun terminal => name terminal =? name0) l = None.
Proof.
  intros Hl. induction l as [|x l IH]; cbn; [reflexivity|].
  destruct (String.eqb_spec (name x) name0) as [Heq|Hne].
  - exfalso. apply (Hl x); [left; reflexivity|exact Heq].
  - apply IH. intros t Hin. apply Hl. right. exact Hin.
Qed.

Lemma getTerminal_twice (e : Editor) (d1 d2 name0 : string) (w : Window) :
  exists t w1,
    Utils.getTerminal e (Some d1) (Some name0) w = (Returned t, w1)
    /\ Utils.getTerminal e (Some d2) (Some name0) w1 = (Returned t, w1).
Proof.
  unfold Utils.getTerminal, bind, ret, getTerminals. cbn.
  destruct (find (fun terminal => name terminal =? name0) (terminals w))
    as [t|] eqn:Hfind.
  - exists t, w. rewrite Hfind. split; reflexivity.
  - unfold createTerminal.
    eexists. eexists. split; [reflexivity|]. cbn [terminals].
    rewrite find_first_named.
    + reflexivity.
    + reflexivity.
    + intros t' Hin Hname.
      apply (find_none _ _ Hfind) in Hin.
      rewrite Hname, String.eqb_refl in Hin. discriminate Hin.
Qed.

(** C5. With both arguments given, [getTerminal] returns the first session of
    the registry whose name is the requested one, whatever directory that
    session has, and leaves the window as it is; two calls with one name and
    two directories return the same session; when no session has the name,
    one session with the given directory and name joins the registry and is
    returned. *)
Theorem C5_getTerminal_name_keyed :
  forall (e : Editor) (dir name0 : string) (w : Window),
    (forall pre t post,
        terminals w = (pre ++ t :: post)%list ->
        name t = name0 ->
        (forall t', In t' pre -> name t' <> name0) ->
        Utils.getTerminal e (Some dir) (Some name0) w = (Returned t, w))
    /\ (forall dir2, exists t w1,
          Utils.getTerminal e (Some dir) (Some name0) w = (Returned t, w1)
          /\ Utils.getTerminal e (Some dir2) (Some name0) w1 = (Returned t, w1))
    /\ ((forall t, In t (terminals w) -> name t <> name0) ->
        Utils.getTerminal e (Some dir) (Some name0) w
        = (Returned {| handle := nextHandle w; name := name0; cwd := dir |},
           {| terminals := terminals w
                ++ [ {| handle := nextHandle w; name := name0; cwd := dir |} ];
              nextHandle := S (nextHandle w);
              shown := shown w; sent := sent w;
              errorMessages := errorMessages w;
              console := console w |})).
Proof.
  intros e dir name0 w. split; [|split].
  - intros pre t post Hw Ht Hpre.
    unfold Utils.getTerminal, bind, ret, getTerminals. cbn.
    rewrite Hw, (find_first_named name0 pre post t Ht Hpre). reflexivity.
  - intros dir2. apply getTerminal_twice.
  - intros Hnone.
    unfold Utils.getTerminal, bind, ret, getTerminals. cbn.
    rewrite (find_none_named name0 (terminals w) Hnone). reflexivity.
Qed.

Lemma C5_getTerminal_name_keyed_witness :
  (Utils.getTerminal Samples.noDocumentEditor (Some "/home/u/proj")
     (Some "tox") Samples.toxWindow
   = (Returned {| handle := 1; name := "tox"; cwd := "/home/u/old" |},
      Samples.toxWindow))
  /\ (Utils.getTerminal Samples.noDocumentEditor (Some "/home/u/proj")
        (Some "Tox") Samples.toxWindow
      = (Returned {| handle := 2; name := "Tox"; cwd := "/home/u/proj" |},
         {| terminals :=
              [ {| handle := 0; name := "bash"; cwd := "/home/u" |};
                {| handle := 1; name := "tox"; cwd := "/home/u/old" |};
                {| handle := 2; name := "Tox"; cwd := "/home/u/proj" |} ];
            nextHandle := 3; shown := []; sent := [];
            errorMessages := []; console := [] |})).
Proof.
  split.
  - apply (C5_getTerminal_name_keyed Samples.noDocumentEditor "/home/u/proj"
             "tox" Samples.toxWindow)
      with (pre := [ {| handle := 0; name := "bash"; cwd := "/home/u" |} ])
           (post := []).
    + reflexivity.
    + reflexivity.
    + intros t' [Ht'|[]]. subst t'. cbn. discriminate.
  - apply (C5_getTerminal_name_keyed Samples.noDocumentEditor "/home/u/proj"
             "Tox" Samples.toxWindow).
    intros t [Ht|[Ht|[]]]; subst t; cbn; discriminate.
Defined.

(** ** The commands when nothing is picked *)

Lemma findProjectDir_logs (e : Editor) (w : Window) (projDir : string) :
  outcome (Extension.findProjectDir e) w = Returned projDir ->
  exists line,
    Extension.findProjectDir e w
    = (Returned projDir,
       {| terminals := terminals w; nextHandle := nextHandle w;
          shown := shown w; sent := sent w;
          errorMessages := errorMessages w;
          console := console w ++ [line] |}).
Proof.
  unfold outcome, Extension.findProjectDir.
  destruct (activeTextEditor e) as [doc|]; [|discriminate].
  destruct (getWorkspaceFolder e doc) as [f|]; cbn; intros H;
    injection H as <-; eexists; reflexivity.
Qed.

(** C7. When a document is focused and tox lists its environments, a
    multiple pick confirmed with no environment chosen is the empty array,
    which [!selected] lets through: [selectMultipleCommand] opens a terminal
    named tox and sends "tox -e " to it.  A cancelled prompt of either
    command, and an empty string picked in the single pick, open no
    terminal, send nothing and show no message. *)
Theorem C7_empty_multiple_pick_runs_tox :
  forall (e : Editor) (w : Window) (projDir stdout : string),
    outcome (Extension.findProjectDir e) w = Returned projDir ->
    exec e "tox -a" projDir = Resolved stdout ->
    let envs := JsString.split (EOL e) (JsString.trim stdout) in
    let many := window (Extension.selectMultipleCommand e) w in
    let one := window (Extension.selectCommand e) w in
    (showQuickPickMany e envs = Some [] ->
     terminals many
     = (terminals w
          ++ [ {| handle := nextHandle w; name := "tox"; cwd := projDir |} ])%list
     /\ sent many = (sent w ++ [(nextHandle w, "tox -e ")])%list)
    /\ (showQuickPickMany e envs = None ->
        terminals many = terminals w /\ sent many = sent w
        /\ errorMessages many = errorMessages w)
    /\ (showQuickPick e envs = None \/ showQuickPick e envs = Some "" ->
        terminals one = terminals w /\ sent one = sent w
        /\ errorMessages one = errorMessages w).
Proof.
  intros e w projDir stdout Hdir Hexec envs many one.
  destruct (findProjectDir_logs e w projDir Hdir) as [line Hfind].
  unfold many, one, window, Extension.selectMultipleCommand,
    Extension.selectCommand, Extension.safeGetToxEnvs, Extension.getToxEnvs,
    bind, catch.
  rewrite Hfind, Hexec. cbn [ret]. fold envs.
  split; [|split].
  - intros Hpick. rewrite Hpick. split; reflexivity.
  - intros Hpick. rewrite Hpick. repeat split.
  - intros [Hpick|Hpick]; rewrite Hpick; repeat split.
Qed.

Lemma C7_empty_multiple_pick_runs_tox_witness :
  let w := window (Extension.selectMultipleCommand
                     (Samples.workspaceEditor None None (Some [])))
             Samples.emptyWindow in
  terminals w = [ {| handle := 0; name := "tox"; cwd := "/home/u/proj" |} ]
  /\ sent w = [(0, "tox -e ")].
Proof.
  destruct (C7_empty_multiple_pick_runs_tox
              (Samples.workspaceEditor None None (Some []))
              Samples.emptyWindow "/home/u/proj" Samples.toxOutput
              eq_refl eq_refl) as (Hempty & _).
  exact (Hempty eq_refl).
Defined.

(** ** The override template *)

(** C2. In the workspace folder /home/u/proj with the override
    [${workspaceFolder}/sub], [findProjectDir] returns
    /home/u/proj/${workspaceFolder}/sub: the placeholder is left in the
    template, which is then joined to the workspace folder as a relative
    path.  The path /home/u/proj/sub is not returned. *)
Theorem C2_workspaceFolder_placeholder_kept :
  outcome (Utils.findProjectDir
             (Samples.workspaceEditor (Some "${workspaceFolder}/sub") None None))
    Samples.emptyWindow
  = Returned "/home/u/proj/${workspaceFolder}/sub"
  /\ PosixPath.normalize "/home/u/proj/sub" = "/home/u/proj/sub"
  /\ outcome (Utils.findProjectDir
                (Samples.workspaceEditor (Some "${workspaceFolder}/sub")
                   None None))
       Samples.emptyWindow
     <> Returned (PosixPath.normalize "/home/u/proj/sub").
Proof.
  split; [reflexivity|]. split; [reflexivity|].
  intros H. vm_compute in H. discriminate H.
Qed.

(** ** Cutting and splitting strings *)

Section Cutting.

Variable pat : string.

Lemma startsWith_append (r : string) : JsString.startsWith pat (pat ++ r) = true.
Proof.
  induction pat as [|c p IH]; cbn; [reflexivity|].
  rewrite Ascii.eqb_refl. exact IH.
Qed.

Lemma startsWith_inv : forall s,
  JsString.startsWith pat s = true -> pat ++ JsString.drop (String.length pat) s = s.
Proof.
  induction pat as [|c p IH]; intros s H; cbn in *; [reflexivity|].
  destruct s as [|d s]; [discriminate H|].
  apply andb_prop in H. destruct H as [Hc Hp].
  apply Ascii.eqb_eq in Hc. subst d. f_equal. apply IH. exact Hp.
Qed.

Lemma startsWith_longer : forall s r,
  JsString.startsWith pat s = true -> JsString.startsWith pat (s ++ r) = true.
Proof.
  induction pat as [|c p IH]; intros s r H; cbn in *; [reflexivity|].
  destruct s as [|d s]; [discriminate H|]. cbn.
  apply andb_prop in H. destruct H as [Hc Hp].
  rewrite Hc. cbn. apply IH. exact Hp.
Qed.

(** A cut splits the string around an occurrence of the pattern. *)
Lemma cut_some : forall s b a,
  JsString.cut pat s = Some (b, a) -> s = b ++ pat ++ a.
Proof.
  induction s as [|c s IH]; intros b a H; cbn in H.
  - destruct (JsString.startsWith pat "") eqn:Hs; [|discriminate H].
    injection H as <- <-. cbn. symmetry. apply (startsWith_inv _ Hs).
  - destruct (JsString.startsWith pat (String c s)) eqn:Hs.
    + injection H as <- <-. cbn [append]. symmetry. apply (startsWith_inv _ Hs).
    + destruct (JsString.cut pat s) as [[b' a']|] eqn:Hc; [|discriminate H].
      injection H as <- <-. cbn. f_equal. apply IH. reflexivity.
Qed.

(** The occurrence is the first one: the text before it holds none. *)
Lemma cut_before : forall s b a,
  pat <> "" -> JsString.cut pat s = Some (b, a) -> JsString.cut pat b = None.
Proof.
  intros s b a Hpat.
  assert (Hempty : JsString.cut pat "" = None).
  { destruct pat; [contradiction|reflexivity]. }
  revert b a. induction s as [|c s IH]; intros b a H; cbn in H.
  - destruct (JsString.startsWith pat ""); [|discriminate H].
    injection H as <- <-. exact Hempty.
  - destruct (JsString.startsWith pat (String c s)) eqn:Hs.
    + injection H as <- <-. exact Hempty.
    + destruct (JsString.cut pat s) as [[b' a']|] eqn:Hc; [|discriminate H].
      injection H as <- <-. cbn.
      rewrite (IH b' a' eq_refl).
      destruct (JsString.startsWith pat (String c b')) eqn:Hsb; [|reflexivity].
      apply (startsWith_longer _ (pat ++ a')) in Hsb.
      cbn [append] in Hsb. rewrite <- (cut_some _ _ _ Hc) in Hsb. congruence.
Qed.

End Cutting.

Lemma length_append (s t : string) :
  String.length (s ++ t) = String.length s + String.length t.
Proof. induction s as [|c s IH]; cbn; [reflexivity|]. rewrite IH. reflexivity. Qed.

Lemma append_assoc (s t u : string) : (s ++ t) ++ u = s ++ t ++ u.
Proof. induction s as [|c s IH]; cbn; [reflexivity|]. rewrite IH. reflexivity. Qed.

Lemma append_empty_r (s : string) : s ++ "" = s.
Proof. induction s as [|c s IH]; cbn; [reflexivity|]. rewrite IH. reflexivity. Qed.

Lemma join_cons (sep x : string) (l : list string) :
  l <> [] -> JsString.join sep (x :: l) = x ++ sep ++ JsString.join sep l.
Proof. destruct l; [contradiction|reflexivity]. Qed.

Lemma split_fuel_nonempty (fuel : nat) (sep s : string) :
  JsString.split_fuel fuel sep s <> [].
Proof.
  destruct fuel; cbn; [discriminate|].
  destruct (JsString.cut sep s) as [[b a]|]; discriminate.
Qed.

(** Joining the pieces with the separator gives the string back: the pieces
    are consecutive and in order. *)
Lemma join_split_fuel (sep : string) : forall fuel s,
  JsString.join sep (JsString.split_fuel fuel sep s) = s.
Proof.
  induction fuel as [|f IH]; intros s; cbn; [reflexivity|].
  destruct (JsString.cut sep s) as [[b a]|] eqn:Hc; [|reflexivity].
  rewrite join_cons by apply split_fuel_nonempty.
  rewrite IH. symmetry. apply cut_some. exact Hc.
Qed.

(** With fuel for the whole string no piece holds the separator. *)
Lemma split_fuel_pieces (sep : string) : sep <> "" -> forall fuel s,
  String.length s <= fuel ->
  Forall (fun x => JsString.includes sep x = false)
    (JsString.split_fuel fuel sep s).
Proof.
  intros Hsep. induction fuel as [|f IH]; intros s Hlen; cbn.
  - constructor; [|constructor].
    destruct s; [|cbn in Hlen; lia].
    unfold JsString.includes. destruct sep; [contradiction|reflexivity].
  - destruct (JsString.cut sep s) as [[b a]|] eqn:Hc.
    + constructor.
      * unfold JsString.includes. rewrite (cut_before sep s b a Hsep Hc).
        reflexivity.
      * apply IH. apply cut_some in Hc. subst s.
        rewrite !length_append in Hlen.
        destruct sep; [contradiction|]. cbn in Hlen. lia.
    + constructor; [|constructor]. unfold JsString.includes. rewrite Hc.
      reflexivity.
Qed.

(** ** Listing the environments *)

(** C6, as stated, fails on the output "py39 ", line feed, "lint" with the
    line feed as separator: the first element of the list keeps its trailing
    blank, so it is not a trimmed string. *)
Lemma C6_elements_not_trimmed :
  outcome (Extension.getToxEnvs
             (Samples.outputEditor Samples.lf
                ("py39 " ++ Samples.lf ++ "lint" ++ Samples.lf))
             "/home/u/proj")
    Samples.emptyWindow
  = Returned ["py39 "; "lint"]
  /\ JsString.trim "py39 " <> "py39 ".
Proof. split; [reflexivity|]. intros H. vm_compute in H. discriminate H. Qed.

(** C6, amended. When tox succeeds, the list is the output with white space
    removed at both ends of the whole, split at the line separator: the
    pieces joined by the separator are the trimmed output, in order, and no
    piece holds the separator; a piece is not trimmed again.  For the output
    py39, py310, lint on three lines separated by line feeds the list is
    py39, py310, lint. *)
Theorem C6_envs_are_lines_of_trimmed_output :
  forall (e : Editor) (projDir stdout : string) (w : Window),
    exec e "tox -a" projDir = Resolved stdout ->
    EOL e <> "" ->
    Extension.getToxEnvs e projDir w
    = (Returned (JsString.split (EOL e) (JsString.trim stdout)), w)
    /\ JsString.join (EOL e) (JsString.split (EOL e) (JsString.trim stdout))
       = JsString.trim stdout
    /\ Forall (fun env => JsString.includes (EOL e) env = false)
         (JsString.split (EOL e) (JsString.trim stdout))
    /\ JsString.split Samples.lf
         (JsString.trim ("py39" ++ Samples.lf ++ "py310" ++ Samples.lf ++ "lint"))
       = ["py39"; "py310"; "lint"].
Proof.
  intros e projDir stdout w Hexec Heol.
  unfold Extension.getToxEnvs. rewrite Hexec.
  split; [reflexivity|].
  unfold JsString.split.
  destruct (EOL e) as [|c sep] eqn:He; [contradiction|].
  split; [apply join_split_fuel|].
  split; [|reflexivity].
  apply split_fuel_pieces; [discriminate|apply le_n].
Qed.

Lemma C6_envs_are_lines_of_trimmed_output_witness :
  Extension.getToxEnvs
    (Samples.outputEditor Samples.lf
       ("py39" ++ Samples.lf ++ "py310" ++ Samples.lf ++ "lint"))
    "/home/u/proj" Samples.emptyWindow
  = (Returned ["py39"; "py310"; "lint"], Samples.emptyWindow).
Proof.
  apply (C6_envs_are_lines_of_trimmed_output
           (Samples.outputEditor Samples.lf
              ("py39" ++ Samples.lf ++ "py310" ++ Samples.lf ++ "lint"))
           "/home/u/proj"
           ("py39" ++ Samples.lf ++ "py310" ++ Samples.lf ++ "lint")
           Samples.emptyWindow).
  - reflexivity.
  - discriminate.
Defined.

(** ** The resolver without an override *)

(** C4, as stated, fails for the file /srv//app/tox.ini outside every
    workspace folder: the path returned is /srv//app, the parent directory as
    [path.dirname] gives it, which [path.normalize] would turn into
    /srv/app. *)
Lemma C4_loose_file_not_normalized :
  getWorkspaceFolder (Samples.looseFileEditor "/srv//app/tox.ini")
    {| fsPath := "/srv//app/tox.ini" |} = None
  /\ overridePresent (Samples.looseFileEditor "/srv//app/tox.ini") = false
  /\ outcome (Utils.findProjectDir (Samples.looseFileEditor "/srv//app/tox.ini"))
       Samples.emptyWindow
     = Returned "/srv//app"
  /\ PosixPath.normalize (PosixPath.dirname "/srv//app/tox.ini") = "/srv/app"
  /\ outcome (Utils.findProjectDir (Samples.looseFileEditor "/srv//app/tox.ini"))
       Samples.emptyWindow
     <> Returned (PosixPath.normalize (PosixPath.dirname "/srv//app/tox.ini")).
Proof.
  repeat (split; [reflexivity|]).
  intros H. vm_compute in H. discriminate H.
Qed.

(** C4, amended. With no override acted on, [findProjectDir] of utils.ts
    returns the normalized root path of the workspace folder of the focused
    document, and for a document in no workspace folder the result of
    [path.dirname] on the document's path, as it is.  [findProjectDir] of
    extension.ts returns the root path as it is, and the same directory for a
    document in no workspace folder. *)
Theorem C4_no_override :
  forall (e : Editor) (w : Window) (doc : Uri),
    activeTextEditor e = Some doc ->
    overridePresent e = false ->
    (forall f, getWorkspaceFolder e doc = Some f ->
       outcome (Utils.findProjectDir e) w
       = Returned (PosixPath.normalize (fsPath (uri f)))
       /\ outcome (Extension.findProjectDir e) w = Returned (fsPath (uri f)))
    /\ (getWorkspaceFolder e doc = None ->
        outcome (Utils.findProjectDir e) w
        = Returned (PosixPath.dirname (fsPath doc))
        /\ outcome (Extension.findProjectDir e) w
           = Returned (PosixPath.dirname (fsPath doc))).
Proof.
  intros e w doc Hdoc Hover.
  unfold outcome, Utils.findProjectDir, Extension.findProjectDir, overridePresent
    in *.
  rewrite Hdoc. split.
  - intros f Hf. rewrite Hf.
    destruct (tox_cwd e) as [cwd|]; [rewrite Hover|]; split; reflexivity.
  - intros Hf. rewrite Hf. split; reflexivity.
Qed.

Lemma C4_no_override_witness :
  (outcome (Utils.findProjectDir (Samples.workspaceEditor None None None))
     Samples.emptyWindow
   = Returned "/home/u/proj")
  /\ (outcome (Utils.findProjectDir (Samples.looseFileEditor "/tmp/x/a.py"))
        Samples.emptyWindow
      = Returned "/tmp/x").
Proof.
  split.
  - destruct (C4_no_override (Samples.workspaceEditor None None None)
                Samples.emptyWindow
                {| fsPath := "/home/u/proj/tests/test_a.py" |}
                eq_refl eq_refl) as [Hin _].
    destruct (Hin Samples.projectRoot eq_refl) as [Hutils _].
    exact Hutils.
  - destruct (C4_no_override (Samples.looseFileEditor "/tmp/x/a.py")
                Samples.emptyWindow {| fsPath := "/tmp/x/a.py" |}
                eq_refl eq_refl) as [_ Hout].
    destruct (Hout eq_refl) as [Hutils _].
    exact Hutils.
Defined.

(** ** The override template: which substitution is kept *)





Lemma includes_dollar_cons (c : ascii) (r : string) :
  JsString.includes "$" (String c r) = false ->
  Ascii.eqb c "$" = false /\ JsString.includes "$" r = false.
Proof.
  unfold JsString.includes.
  cbn [JsString.cut JsString.startsWith JsString.drop String.length].
  rewrite andb_true_r, (Ascii.eqb_sym "$" c).
  destruct (Ascii.eqb c "$"); [discriminate|].
  destruct (JsString.cut "$" r) as [[? ?]|]; [discriminate|].
  split; reflexivity.
Qed.

(** A replacement text without a dollar is inserted as it is. *)
Lemma getSubstitution_plain (m b a : string) : forall r,
  JsString.includes "$" r = false -> JsString.getSubstitution m b a r = r.
Proof.
  induction r as [|c r IH]; intros H; [reflexivity|].
  apply includes_dollar_cons in H. destruct H as [Hc Hr].
  cbn [JsString.getSubstitution]. rewrite Hc, (IH Hr). reflexivity.
Qed.




(** ** Normalized paths *)

Lemma segments_nonempty (s : string) : PosixPath.segments s <> [].
Proof.
  destruct s as [|c s]; cbn; [discriminate|].
  destruct (PosixPath.isSlash c); [discriminate|].
  destruct (PosixPath.segments s); discriminate.
Qed.

Lemma segments_slashFree (s : string) :
  Forall (fun x => slashFree x = true) (PosixPath.segments s).
Proof.
  induction s as [|c s IH]; cbn; [repeat constructor|].
  destruct (PosixPath.isSlash c) eqn:Hc.
  - constructor; [reflexivity|exact IH].
  - destruct (PosixPath.segments s) as [|x r].
    + constructor; [cbn; rewrite Hc; reflexivity|constructor].
    + inversion IH as [|? ? Hx Hr]; subst.
      constructor; [cbn; rewrite Hc, Hx; reflexivity|exact Hr].
Qed.

Lemma segments_of_slashFree (s : string) :
  slashFree s = true -> PosixPath.segments s = [s].
Proof.
  induction s as [|c s IH]; cbn; [reflexivity|].
  intros H. apply andb_prop in H. destruct H as [Hc Hs].
  apply negb_true_iff in Hc. rewrite Hc, (IH Hs). reflexivity.
Qed.

Lemma segments_slash (a b : string) :
  PosixPath.segments (a ++ String "/" b)
  = (PosixPath.segments a ++ PosixPath.segments b)%list.
Proof.
  induction a as [|c a IH]; [reflexivity|].
  cbn [append PosixPath.segments]. rewrite IH.
  destruct (PosixPath.isSlash c); [reflexivity|].
  pose proof (segments_nonempty a) as Hne.
  destruct (PosixPath.segments a) as [|x r]; [contradiction|reflexivity].
Qed.

Lemma segments_join (S : list string) :
  S <> [] -> Forall (fun x => slashFree x = true) S ->
  PosixPath.segments (JsString.join "/" S) = S.
Proof.
  induction S as [|x S IH]; intros Hne HS; [contradiction|].
  inversion HS as [|? ? Hx HS']; subst.
  destruct S as [|y S]; [apply segments_of_slashFree; exact Hx|].
  rewrite join_cons by discriminate.
  change (x ++ "/" ++ JsString.join "/" (y :: S))
    with (x ++ String "/" (JsString.join "/" (y :: S))).
  rewrite segments_slash, (segments_of_slashFree x Hx), IH;
    [reflexivity|discriminate|exact HS'].
Qed.

Lemma properSegment_inv (s : string) :
  properSegment s = true ->
  slashFree s = true /\ s <> "" /\ s <> "." /\ s <> "..".
Proof.
  unfold properSegment. intros H.
  repeat (apply andb_prop in H; destruct H as [H ?]).
  repeat match goal with
         | Hn : negb (_ =? _) = true |- _ =>
             apply negb_true_iff in Hn; apply String.eqb_neq in Hn
         end.
  repeat split; assumption.
Qed.

Lemma pushSegment_proper (allow : bool) (st : list string) (seg : string) :
  properSegment seg = true -> PosixPath.pushSegment allow st seg = seg :: st.
Proof.
  intros H. apply properSegment_inv in H. destruct H as (_ & H1 & H2 & H3).
  unfold PosixPath.pushSegment.
  apply String.eqb_neq in H1, H2, H3. rewrite H1, H2, H3. reflexivity.
Qed.

Lemma fold_push_proper (allow : bool) (names : list string) :
  Forall (fun x => properSegment x = true) names ->
  forall st,
    fold_left (PosixPath.pushSegment allow) names st = (rev names ++ st)%list.
Proof.
  induction names as [|x names IH]; intros H st; [reflexivity|].
  inversion H as [|? ? Hx Hn]; subst. cbn.
  rewrite (pushSegment_proper allow st x Hx), (IH Hn).
  rewrite <- app_assoc. reflexivity.
Qed.

Lemma fold_push_dotdot (k : nat) :
  forall j,
    fold_left (PosixPath.pushSegment true) (repeat ".." k) (repeat ".." j)
    = repeat ".." (k + j).
Proof.
  induction k as [|k IH]; intros j; [reflexivity|].
  cbn [repeat fold_left].
  replace (PosixPath.pushSegment true (repeat ".." j) "..")
    with (repeat ".." (S j)) by (destruct j; reflexivity).
  rewrite IH. f_equal. lia.
Qed.

Lemma repeat_rev {A} (x : A) (k : nat) : rev (repeat x k) = repeat x k.
Proof.
  induction k as [|k IH]; [reflexivity|].
  cbn. rewrite IH. symmetry. apply repeat_cons.
Qed.

(** A clean stack is what [normalizeString] builds from its own segments. *)
Lemma refold_cleanStack (allow : bool) (st : list string) :
  cleanStack allow st ->
  fold_left (PosixPath.pushSegment allow) (rev st) [] = st.
Proof.
  intros (names & k & Hst & Hnames & Hk). subst st.
  rewrite rev_app_distr, repeat_rev, fold_left_app.
  assert (Hdots : fold_left (PosixPath.pushSegment allow) (repeat ".." k) []
                  = repeat ".." k).
  { destruct allow.
    - change (@nil string) with (repeat ".." 0).
      rewrite (fold_push_dotdot k 0). f_equal. lia.
    - rewrite (Hk eq_refl). reflexivity. }
  rewrite Hdots, fold_push_proper.
  - rewrite rev_involutive. reflexivity.
  - apply Forall_rev. exact Hnames.
Qed.

Lemma pushSegment_clean (allow : bool) (st : list string) (seg : string) :
  slashFree seg = true -> cleanStack allow st ->
  cleanStack allow (PosixPath.pushSegment allow st seg).
Proof.
  intros Hseg (names & k & Hst & Hnames & Hk). subst st.
  unfold PosixPath.pushSegment.
  destruct (String.eqb_spec seg ""); [exists names, k; auto|].
  destruct (String.eqb_spec seg "."); [exists names, k; auto|].
  destruct (String.eqb_spec seg "..") as [Hdd|Hdd].
  - destruct names as [|top names].
    + cbn [app]. destruct k as [|k].
      * cbn. destruct allow.
        -- exists [], 1. repeat split; [constructor|discriminate].
        -- exists [], 0. repeat split. constructor.
      * cbn [repeat]. rewrite String.eqb_refl. destruct allow.
        -- exists [], (S (S k)). repeat split; [constructor|discriminate].
        -- exists [], (S k). repeat split; [constructor|exact Hk].
    + inversion Hnames as [|? ? Htop Hrest]; subst. cbn [app].
      apply properSegment_inv in Htop. destruct Htop as (_ & _ & _ & Htop).
      apply String.eqb_neq in Htop. rewrite Htop.
      exists names, k. auto.
  - exists (seg :: names), k. repeat split; [|exact Hk].
    constructor; [|exact Hnames].
    unfold properSegment. rewrite Hseg.
    repeat match goal with
           | Hn : _ <> _ |- _ => apply String.eqb_neq in Hn; rewrite Hn
           end.
    reflexivity.
Qed.

Lemma fold_push_clean (allow : bool) (segs : list string) :
  Forall (fun x => slashFree x = true) segs ->
  forall st, cleanStack allow st ->
             cleanStack allow (fold_left (PosixPath.pushSegment allow) segs st).
Proof.
  induction segs as [|x segs IH]; intros H st Hst; [exact Hst|].
  inversion H as [|? ? Hx Hs]; subst. cbn.
  apply (IH Hs). apply pushSegment_clean; assumption.
Qed.

Lemma normalizeString_clean (path : string) (allow : bool) :
  cleanStack allow
    (fold_left (PosixPath.pushSegment allow) (PosixPath.segments path) []).
Proof.
  apply fold_push_clean; [apply segments_slashFree|].
  exists [], 0. repeat split. constructor.
Qed.

Lemma cleanStack_segments (allow : bool) (st : list string) :
  cleanStack allow st ->
  Forall (fun x => slashFree x = true /\ x <> "") st.
Proof.
  intros (names & k & Hst & Hnames & _). subst st.
  apply Forall_app. split.
  - eapply Forall_impl; [|exact Hnames].
    intros x Hx. apply properSegment_inv in Hx. tauto.
  - apply Forall_forall. intros x Hx. apply repeat_spec in Hx. subst x.
    split; [reflexivity|discriminate].
Qed.

Lemma firstIsSlash_slashFree (x : string) :
  slashFree x = true -> PosixPath.firstIsSlash x = false.
Proof.
  destruct x as [|c x]; cbn; [reflexivity|].
  intros H. apply andb_prop in H. destruct H as [H _].
  apply negb_true_iff in H. exact H.
Qed.

Lemma lastIsSlash_slashFree (x : string) :
  slashFree x = true -> PosixPath.lastIsSlash x = false.
Proof.
  induction x as [|c x IH]; [reflexivity|].
  cbn [slashFree]. intros H. apply andb_prop in H. destruct H as [Hc Hx].
  apply negb_true_iff in Hc. cbn.
  destruct x; [exact Hc|apply IH; exact Hx].
Qed.

Lemma firstIsSlash_append (a b : string) :
  a <> "" -> PosixPath.firstIsSlash (a ++ b) = PosixPath.firstIsSlash a.
Proof. destruct a; [contradiction|reflexivity]. Qed.

Lemma lastIsSlash_append (a b : string) :
  b <> "" -> PosixPath.lastIsSlash (a ++ b) = PosixPath.lastIsSlash b.
Proof.
  intros Hb. induction a as [|c a IH]; [reflexivity|].
  cbn [append]. cbn [PosixPath.lastIsSlash].
  destruct (a ++ b) eqn:Hab; [|exact IH].
  destruct a; [cbn in Hab; contradiction|discriminate Hab].
Qed.

(** The text [normalizeString] returns for a stack that is not empty. *)
Lemma join_segments_shape (S : list string) :
  S <> [] -> Forall (fun x => slashFree x = true /\ x <> "") S ->
  JsString.join "/" S <> ""
  /\ PosixPath.firstIsSlash (JsString.join "/" S) = false
  /\ PosixPath.lastIsSlash (JsString.join "/" S) = false.
Proof.
  induction S as [|x S IH]; intros Hne HS; [contradiction|].
  inversion HS as [|? ? [Hx Hxne] HS']; subst.
  destruct S as [|y S].
  - cbn. repeat split;
      [exact Hxne|apply firstIsSlash_slashFree|apply lastIsSlash_slashFree];
      exact Hx.
  - rewrite join_cons by discriminate.
    destruct (IH ltac:(discriminate) HS') as (Hj & _ & Hl).
    repeat split.
    + destruct x; [contradiction|discriminate].
    + rewrite firstIsSlash_append by exact Hxne.
      apply firstIsSlash_slashFree. exact Hx.
    + rewrite lastIsSlash_append
        by (destruct (JsString.join "/" (y :: S)); discriminate).
      change ("/" ++ JsString.join "/" (y :: S))
        with (String "/" (JsString.join "/" (y :: S))).
      cbn [PosixPath.lastIsSlash].
      destruct (JsString.join "/" (y :: S)); [contradiction|exact Hl].
Qed.

Lemma segments_leading_slash (s : string) :
  PosixPath.segments (String "/" s) = "" :: PosixPath.segments s.
Proof. reflexivity. Qed.

Lemma pushSegment_empty (allow : bool) (st : list string) :
  PosixPath.pushSegment allow st "" = st.
Proof. reflexivity. Qed.

Lemma normalize_unfold (s : string) :
  s <> "" ->
  PosixPath.normalize s
  = let p := PosixPath.normalizeString s (negb (PosixPath.firstIsSlash s)) in
    match p with
    | EmptyString =>
        if PosixPath.firstIsSlash s then "/"
        else if PosixPath.lastIsSlash s then "./" else "."
    | String _ _ =>
        if PosixPath.firstIsSlash s
        then "/" ++ (if PosixPath.lastIsSlash s then p ++ "/" else p)
        else (if PosixPath.lastIsSlash s then p ++ "/" else p)
    end.
Proof. destruct s; [contradiction|reflexivity]. Qed.

(** A path written out from a clean stack is a fixed point of
    [path.normalize]. *)
Lemma normalize_rendered (abs tr : bool) (st : list string) :
  st <> [] -> cleanStack (negb abs) st ->
  let J := JsString.join "/" (rev st) in
  let P := (if abs then "/" else "") ++ (if tr then J ++ "/" else J) in
  PosixPath.normalize P = P.
Proof.
  intros Hne Hclean J P.
  assert (HS : Forall (fun x => slashFree x = true /\ x <> "") (rev st)).
  { apply Forall_rev. apply (cleanStack_segments _ _ Hclean). }
  assert (HSf : Forall (fun x => slashFree x = true) (rev st)).
  { eapply Forall_impl; [|exact HS]. intros x [Hx _]. exact Hx. }
  assert (Hrev : rev st <> []).
  { intros H. apply (f_equal (@rev string)) in H.
    rewrite rev_involutive in H. contradiction. }
  destruct (join_segments_shape (rev st) Hrev HS) as (HJ & HJf & HJl).
  fold J in HJ, HJf, HJl.
  assert (Hseg : PosixPath.segments J = rev st)
    by (apply segments_join; assumption).
  assert (Hfirst : PosixPath.firstIsSlash P = abs).
  { unfold P. destruct abs; [reflexivity|]. cbn [append].
    destruct tr; [rewrite firstIsSlash_append by exact HJ|]; exact HJf. }
  assert (Hlast : PosixPath.lastIsSlash P = tr).
  { unfold P. destruct tr.
    - rewrite lastIsSlash_append; [apply lastIsSlash_append; discriminate|].
      destruct J; discriminate.
    - rewrite lastIsSlash_append by exact HJ. exact HJl. }
  assert (Hnorm : PosixPath.normalizeString P (negb abs) = J).
  { unfold PosixPath.normalizeString.
    assert (Hfold : fold_left (PosixPath.pushSegment (negb abs))
                      (PosixPath.segments P) [] = st).
    { assert (Hbody : forall allow,
                cleanStack allow st ->
                fold_left (PosixPath.pushSegment allow)
                  (PosixPath.segments (if tr then J ++ "/" else J)) [] = st).
      { intros allow Hc. destruct tr.
        - change (J ++ "/") with (J ++ String "/" "").
          rewrite segments_slash, Hseg, fold_left_app.
          rewrite (refold_cleanStack allow st Hc). reflexivity.
        - rewrite Hseg. apply refold_cleanStack. exact Hc. }
      unfold P. destruct abs.
      - change ("/" ++ (if tr then J ++ "/" else J))
          with (String "/" (if tr then J ++ "/" else J)).
        rewrite segments_leading_slash. cbn [fold_left].
        rewrite pushSegment_empty. apply Hbody. exact Hclean.
      - cbn [append]. apply Hbody. exact Hclean. }
    rewrite Hfold. reflexivity. }
  rewrite normalize_unfold.
  - cbv zeta. rewrite Hfirst, Hlast, Hnorm.
    destruct J as [|j J']; [contradiction|].
    unfold P. destruct abs, tr; reflexivity.
  - unfold P. destruct abs; [discriminate|].
    destruct tr, J; try discriminate; contradiction.
Qed.

(** [path.normalize] returns a normalized path. *)
Lemma normalize_normalized (s : string) : normalized (PosixPath.normalize s).
Proof.
  unfold normalized.
  destruct s as [|c s]; [reflexivity|].
  set (p := String c s).
  pose proof (normalizeString_clean p (negb (PosixPath.firstIsSlash p)))
    as Hclean.
  rewrite (normalize_unfold p) by discriminate.
  cbv zeta. unfold PosixPath.normalizeString.
  destruct (fold_left (PosixPath.pushSegment (negb (PosixPath.firstIsSlash p)))
              (PosixPath.segments p) []) as [|x st] eqn:Hst.
  - change (JsString.join "/" (rev [])) with "". cbv iota.
    destruct (PosixPath.firstIsSlash p); [reflexivity|].
    destruct (PosixPath.lastIsSlash p); reflexivity.
  - pose proof (normalize_rendered (PosixPath.firstIsSlash p)
                  (PosixPath.lastIsSlash p) (x :: st)
                  ltac:(discriminate) Hclean) as Hfix.
    cbv zeta in Hfix.
    destruct (JsString.join "/" (rev (x :: st))) as [|j J] eqn:HJ.
    + exfalso.
      assert (HS : Forall (fun y => slashFree y = true /\ y <> "")
                     (rev (x :: st)))
        by (apply Forall_rev, (cleanStack_segments _ _ Hclean)).
      assert (Hrev : rev (x :: st) <> []).
      { intros H. apply (f_equal (@rev string)) in H.
        rewrite rev_involutive in H. discriminate H. }
      destruct (join_segments_shape _ Hrev HS) as (Hne & _).
      contradiction.
    + destruct (PosixPath.firstIsSlash p), (PosixPath.lastIsSlash p);
        exact Hfix.
Qed.

(** [path.normalize] keeps an absolute path absolute. *)
Lemma normalize_absolute (s : string) :
  PosixPath.isAbsolute s = true ->
  PosixPath.isAbsolute (PosixPath.normalize s) = true.
Proof.
  unfold PosixPath.isAbsolute. intros H.
  destruct s as [|c s]; [discriminate H|].
  rewrite normalize_unfold by discriminate. cbv zeta. rewrite H.
  destruct (PosixPath.normalizeString _ _); reflexivity.
Qed.

Lemma join_absolute (a b : string) :
  PosixPath.isAbsolute a = true ->
  PosixPath.isAbsolute (PosixPath.join a b) = true.
Proof.
  intros H. destruct a as [|c a]; [discriminate H|].
  destruct b as [|d b]; cbn [PosixPath.join]; apply normalize_absolute;
    exact H.
Qed.

Lemma dirname_absolute (s : string) :
  PosixPath.isAbsolute s = true ->
  PosixPath.isAbsolute (PosixPath.dirname s) = true.
Proof.
  intros H. destruct s as [|c s]; [discriminate H|].
  cbn in H. unfold PosixPath.dirname. cbv zeta. rewrite H.
  destruct (PosixPath.dropWhile _ _) as [|x [|y before]]; try reflexivity.
  exact H.
Qed.

(** A normalized absolute path is the root followed by names separated by
    one slash each, with one slash at the end at most. *)
Lemma normalize_absolute_shape (s : string) :
  PosixPath.isAbsolute s = true ->
  exists names,
    Forall (fun x => properSegment x = true) names
    /\ (PosixPath.normalize s = "/" ++ JsString.join "/" names
        \/ (names <> []
            /\ PosixPath.normalize s = "/" ++ JsString.join "/" names ++ "/")).
Proof.
  unfold PosixPath.isAbsolute. intros Habs.
  destruct s as [|c s]; [discriminate Habs|].
  rewrite normalize_unfold by discriminate. cbv zeta. rewrite Habs.
  pose proof (normalizeString_clean (String c s) (negb true)) as Hclean.
  destruct Hclean as (names & k & Hst & Hnames & Hk).
  rewrite (Hk eq_refl), app_nil_r in Hst.
  unfold PosixPath.normalizeString. cbn [negb] in *. rewrite Hst.
  exists (rev names). split; [apply Forall_rev; exact Hnames|].
  destruct (JsString.join "/" (rev names)) as [|j J] eqn:HJ.
  - left. reflexivity.
  - destruct (PosixPath.lastIsSlash (String c s)).
    + right. split; [|reflexivity].
      intros Hnil. rewrite Hnil in HJ. discriminate HJ.
    + left. reflexivity.
Qed.

Lemma dropWhile_none (f : ascii -> bool) (l : list ascii) :
  Forall (fun c => f c = false) l -> PosixPath.dropWhile f l = l.
Proof.
  intros H. destruct H as [|c l Hc _]; [reflexivity|].
  cbn. rewrite Hc. reflexivity.
Qed.

Lemma dropWhile_all (f : ascii -> bool) (l : list ascii) :
  Forall (fun c => f c = true) l -> PosixPath.dropWhile f l = [].
Proof.
  induction 1 as [|c l Hc _ IH]; [reflexivity|].
  cbn. rewrite Hc. exact IH.
Qed.

Lemma slashFree_units (s : string) :
  slashFree s = true ->
  Forall (fun c => PosixPath.isSlash c = false) (list_ascii_of_string s).
Proof.
  induction s as [|c s IH]; cbn; [constructor|].
  intros H. apply andb_prop in H. destruct H as [Hc Hs].
  apply negb_true_iff in Hc. constructor; [exact Hc|apply IH; exact Hs].
Qed.

(** [path.dirname] of a path without a slash is the current directory. *)
Lemma dirname_slashFree (p : string) :
  slashFree p = true -> PosixPath.dirname p = ".".
Proof.
  destruct p as [|c0 rest]; [reflexivity|].
  cbn [slashFree]. intros H. apply andb_prop in H. destruct H as [Hc Hrest].
  apply negb_true_iff in Hc.
  pose proof (Forall_rev (slashFree_units rest Hrest)) as Hall.
  unfold PosixPath.dirname. cbv zeta.
  rewrite (dropWhile_none PosixPath.isSlash _ Hall).
  rewrite dropWhile_all.
  - rewrite Hc. reflexivity.
  - eapply Forall_impl; [|exact Hall].
    intros a Ha. cbv beta in *. rewrite Ha. reflexivity.
Qed.

(** ** What the resolver returns *)

(** C3, as stated, fails for a document in no workspace folder: for the
    untitled document Untitled-1 the resolver returns the relative path [.],
    and for /srv//app/tox.ini it returns /srv//app, which is not
    normalized. *)
Lemma C3_loose_file_relative_or_unnormalized :
  outcome (Utils.findProjectDir (Samples.looseFileEditor "Untitled-1"))
    Samples.emptyWindow
  = Returned "."
  /\ PosixPath.isAbsolute "." = false
  /\ outcome (Utils.findProjectDir (Samples.looseFileEditor "/srv//app/tox.ini"))
       Samples.emptyWindow
     = Returned "/srv//app"
  /\ ~ normalized "/srv//app".
Proof.
  repeat (split; [reflexivity|]).
  unfold normalized. intros H. vm_compute in H. discriminate H.
Qed.

(** C3, amended. The resolver throws when no document is focused.  For a
    document of a workspace folder it returns a normalized path, and when
    the root path of the workspace folder is absolute that path is absolute:
    the root followed by names separated by one slash each.  For a document
    in no workspace folder it returns [path.dirname] of the document's path
    as it is, which is absolute when the document's path is, and is [.]
    when the document's path holds no slash. *)
Theorem C3_resolver_result :
  forall (e : Editor) (w : Window),
    (activeTextEditor e = None ->
     outcome (Utils.findProjectDir e) w = Thrown "No active editor found.")
    /\ (forall doc f,
          activeTextEditor e = Some doc ->
          getWorkspaceFolder e doc = Some f ->
          exists p,
            outcome (Utils.findProjectDir e) w = Returned p
            /\ normalized p
            /\ (PosixPath.isAbsolute (fsPath (uri f)) = true ->
                PosixPath.isAbsolute p = true
                /\ exists names,
                     Forall (fun x => properSegment x = true) names
                     /\ (p = "/" ++ JsString.join "/" names
                         \/ (names <> []
                             /\ p = "/" ++ JsString.join "/" names ++ "/"))))
    /\ (forall doc,
          activeTextEditor e = Some doc ->
          getWorkspaceFolder e doc = None ->
          outcome (Utils.findProjectDir e) w
          = Returned (PosixPath.dirname (fsPath doc))
          /\ (PosixPath.isAbsolute (fsPath doc) = true ->
              PosixPath.isAbsolute (PosixPath.dirname (fsPath doc)) = true)
          /\ (slashFree (fsPath doc) = true ->
              PosixPath.dirname (fsPath doc) = "."
              /\ outcome (Utils.findProjectDir e) w = Returned ".")).
Proof.
  intros e w. unfold outcome, Utils.findProjectDir. split; [|split].
  - intros Hnone. rewrite Hnone. reflexivity.
  - intros doc f Hdoc Hf. rewrite Hdoc, Hf. cbv zeta.
    match goal with
    | |- context [PosixPath.normalize ?x] => set (folder := x)
    end.
    exists (PosixPath.normalize folder).
    split; [reflexivity|]. split; [apply normalize_normalized|].
    intros Hroot.
    assert (Hfolder : PosixPath.isAbsolute folder = true).
    { unfold folder. destruct (tox_cwd e) as [cwd|]; [|exact Hroot].
      destruct (JsString.truthy cwd); [|exact Hroot].
      destruct (PosixPath.isAbsolute (Utils.toxRootFolder _ _ _)) eqn:Hkept;
        cbn [negb]; [exact Hkept|].
      apply join_absolute. exact Hroot. }
    split; [apply normalize_absolute; exact Hfolder|].
    apply normalize_absolute_shape. exact Hfolder.
  - intros doc Hdoc Hf. rewrite Hdoc, Hf. split; [reflexivity|].
    split; [apply dirname_absolute|].
    intros Hfree. cbv zeta. rewrite (dirname_slashFree _ Hfree).
    split; reflexivity.
Qed.

Lemma C3_resolver_result_witness :
  (exists p,
      outcome (Utils.findProjectDir
                 (Samples.workspaceEditor (Some "../other//lib/./") None None))
        Samples.emptyWindow = Returned p
      /\ normalized p /\ PosixPath.isAbsolute p = true
      /\ p = "/home/u/other/lib/")
  /\ outcome (Utils.findProjectDir (Samples.looseFileEditor "/tmp/x/a.py"))
       Samples.emptyWindow = Returned "/tmp/x"
  /\ outcome (Utils.findProjectDir (Samples.looseFileEditor "Untitled-1"))
       Samples.emptyWindow = Returned "."
  /\ outcome (Utils.findProjectDir Samples.noDocumentEditor)
       Samples.emptyWindow = Thrown "No active editor found.".
Proof.
  split; [|split; [|split]].
  - destruct (C3_resolver_result
                (Samples.workspaceEditor (Some "../other//lib/./") None None)
                Samples.emptyWindow) as (_ & Hin & _).
    destruct (Hin {| fsPath := "/home/u/proj/tests/test_a.py" |}
                Samples.projectRoot eq_refl eq_refl)
      as (p & Hp & Hnorm & Habs).
    exists p. split; [exact Hp|]. split; [exact Hnorm|].
    split; [apply (Habs eq_refl)|].
    vm_compute in Hp. injection Hp as Hp. symmetry. exact Hp.
  - destruct (C3_resolver_result (Samples.looseFileEditor "/tmp/x/a.py")
                Samples.emptyWindow) as (_ & _ & Hout).
    destruct (Hout {| fsPath := "/tmp/x/a.py" |} eq_refl eq_refl)
      as (Hdir & _).
    exact Hdir.
  - destruct (C3_resolver_result (Samples.looseFileEditor "Untitled-1")
                Samples.emptyWindow) as (_ & _ & Hout).
    destruct (Hout {| fsPath := "Untitled-1" |} eq_refl eq_refl)
      as (_ & _ & Hfree).
    exact (proj2 (Hfree eq_refl)).
  - destruct (C3_resolver_result Samples.noDocumentEditor
                Samples.emptyWindow) as (Hnone & _).
    apply (Hnone eq_refl).
Defined.

(** ** The commands: failures, runs and settings *)

Lemma utils_findProjectDir_logs (e : Editor) (w : Window) :
  (activeTextEditor e = None
   /\ Utils.findProjectDir e w = (Thrown "No active editor found.", w))
  \/ exists p pre,
       Utils.findProjectDir e w
       = (Returned p,
          {| terminals := terminals w; nextHandle := nextHandle w;
             shown := shown w; sent := sent w;
             errorMessages := errorMessages w;
             console := console w ++ [pre ++ p] |}).
Proof.
  unfold Utils.findProjectDir.
  destruct (activeTextEditor e) as [doc|]; [right|left; split; reflexivity].
  destruct (getWorkspaceFolder e doc) as [f|]; cbv zeta.
  - eexists. exists "tox workspace folder: ". reflexivity.
  - eexists. exists ("tox doc path: " ++ fsPath doc ++ " -> ").
    unfold bind, console_log, ret. rewrite !append_assoc. reflexivity.
Qed.

Lemma extension_findProjectDir_logs (e : Editor) (w : Window) :
  (activeTextEditor e = None
   /\ Extension.findProjectDir e w = (Thrown "No active editor found.", w))
  \/ exists p pre,
       Extension.findProjectDir e w
       = (Returned p,
          {| terminals := terminals w; nextHandle := nextHandle w;
             shown := shown w; sent := sent w;
             errorMessages := errorMessages w;
             console := console w ++ [pre ++ p] |}).
Proof.
  unfold Extension.findProjectDir.
  destruct (activeTextEditor e) as [doc|]; [right|left; split; reflexivity].
  destruct (getWorkspaceFolder e doc) as [f|]; cbv zeta.
  - eexists. exists "tox workspace folder: ". reflexivity.
  - eexists. exists ("tox doc path: " ++ fsPath doc ++ " -> ").
    unfold bind, console_log, ret. rewrite !append_assoc. reflexivity.
Qed.

(** X7. Both [findProjectDir] functions change nothing but the console:
    a call that throws leaves the window as it was, a call that returns has
    written one line, which ends with the directory returned. *)
Theorem X7_findProjectDir_only_logs :
  forall (e : Editor) (w : Window),
    (match outcome (Utils.findProjectDir e) w with
     | Thrown _ => window (Utils.findProjectDir e) w = w
     | Returned p =>
         exists pre,
           window (Utils.findProjectDir e) w
           = {| terminals := terminals w; nextHandle := nextHandle w;
                shown := shown w; sent := sent w;
                errorMessages := errorMessages w;
                console := console w ++ [pre ++ p] |}
     end)
    /\ (match outcome (Extension.findProjectDir e) w with
        | Thrown _ => window (Extension.findProjectDir e) w = w
        | Returned p =>
            exists pre,
              window (Extension.findProjectDir e) w
              = {| terminals := terminals w; nextHandle := nextHandle w;
                   shown := shown w; sent := sent w;
                   errorMessages := errorMessages w;
                   console := console w ++ [pre ++ p] |}
        end).
Proof.
  intros e w. unfold outcome, window. split.
  - destruct (utils_findProjectDir_logs e w) as [[_ H]|(p & pre & H)];
      rewrite H; cbn [fst snd]; [reflexivity|exists pre; reflexivity].
  - destruct (extension_findProjectDir_logs e w) as [[_ H]|(p & pre & H)];
      rewrite H; cbn [fst snd]; [reflexivity|exists pre; reflexivity].
Qed.

(** X1. When tox cannot be run, [safeGetToxEnvs] shows the message of the
    failure and returns [undefined]; each of the two commands then returns
    normally having shown that one message, with no terminal opened and
    nothing sent or shown in a terminal. *)
Theorem X1_subprocess_failure_is_reported :
  forall (e : Editor) (w : Window) (projDir message : string),
    outcome (Extension.findProjectDir e) w = Returned projDir ->
    exec e "tox -a" projDir = Rejected message ->
    (forall w0,
        Extension.safeGetToxEnvs e projDir w0
        = (Returned None,
           {| terminals := terminals w0; nextHandle := nextHandle w0;
              shown := shown w0; sent := sent w0;
              errorMessages := errorMessages w0 ++ [message];
              console := console w0 |}))
    /\ (forall command,
          command = Extension.selectCommand e
          \/ command = Extension.selectMultipleCommand e ->
          outcome command w = Returned tt
          /\ errorMessages (window command w)
             = (errorMessages w ++ [message])%list
          /\ terminals (window command w) = terminals w
          /\ sent (window command w) = sent w
          /\ shown (window command w) = shown w).
Proof.
  intros e w projDir message Hdir Hexec. split.
  - intros w0.
    unfold Extension.safeGetToxEnvs, Extension.getToxEnvs, catch, bind.
    rewrite Hexec. reflexivity.
  - destruct (findProjectDir_logs e w projDir Hdir) as [line Hfind].
    intros command [Hc|Hc]; subst command;
      unfold outcome, window, Extension.selectCommand,
        Extension.selectMultipleCommand, Extension.safeGetToxEnvs,
        Extension.getToxEnvs, catch, bind;
      rewrite Hfind, Hexec; repeat split.
Qed.

Lemma X1_subprocess_failure_is_reported_witness :
  errorMessages
    (window (Extension.selectCommand (failingEditor "Command failed: tox -a"))
       Samples.toxWindow)
  = ["Command failed: tox -a"].
Proof.
  refine (proj1 (proj2 (proj2
            (X1_subprocess_failure_is_reported
               (failingEditor "Command failed: tox -a") Samples.toxWindow
               "/home/u/proj" "Command failed: tox -a" eq_refl eq_refl)
            _ (or_introl eq_refl)))).
Defined.

(** X2. With a focused document neither command throws, whatever tox and
    the user answer: a command fails only for want of a focused document. *)
Theorem X2_commands_return_with_document :
  forall (e : Editor) (w : Window) (doc : Uri),
    activeTextEditor e = Some doc ->
    outcome (Extension.selectCommand e) w = Returned tt
    /\ outcome (Extension.selectMultipleCommand e) w = Returned tt.
Proof.
  intros e w doc Hdoc.
  destruct (extension_findProjectDir_logs e w) as [[Hn _]|(p & pre & Hfind)];
    [congruence|].
  unfold outcome, Extension.selectCommand, Extension.selectMultipleCommand,
    Extension.safeGetToxEnvs, Extension.getToxEnvs, catch, bind.
  rewrite Hfind. destruct (exec e "tox -a" p); cbn; [|split; reflexivity].
  split.
  - destruct (showQuickPick e _) as [s|]; [|reflexivity].
    destruct s; reflexivity.
  - destruct (showQuickPickMany e _) as [s|]; reflexivity.
Qed.

Lemma X2_commands_return_with_document_witness :
  outcome (Extension.selectCommand
             (Samples.workspaceEditor None (Some "lint") None))
    Samples.toxWindow = Returned tt.
Proof.
  apply (X2_commands_return_with_document
           (Samples.workspaceEditor None (Some "lint") None) Samples.toxWindow
           {| fsPath := "/home/u/proj/tests/test_a.py" |} eq_refl).
Defined.

(** X3. When tox lists its environments and the user picks a non-empty
    name, [selectCommand] opens one terminal named tox in the directory
    [findProjectDir] returned, shows it keeping the focus, and sends
    "tox -e " and the name; [selectMultipleCommand] does the same with the
    picked names joined by commas.  No message is shown. *)
Theorem X3_commands_run_the_pick :
  forall (e : Editor) (w : Window) (projDir stdout : string),
    outcome (Extension.findProjectDir e) w = Returned projDir ->
    exec e "tox -a" projDir = Resolved stdout ->
    let envs := JsString.split (EOL e) (JsString.trim stdout) in
    let ran (command : Cmd unit) (envArg : string) :=
      let w' := window command w in
      terminals w'
      = (terminals w
           ++ [ {| handle := nextHandle w; name := "tox"; cwd := projDir |} ])%list
      /\ shown w' = (shown w ++ [(nextHandle w, true)])%list
      /\ sent w' = (sent w ++ [(nextHandle w, ("tox -e " ++ envArg)%string)])%list
      /\ errorMessages w' = errorMessages w in
    (forall selected,
        showQuickPick e envs = Some selected -> selected <> "" ->
        ran (Extension.selectCommand e) selected)
    /\ (forall selected,
          showQuickPickMany e envs = Some selected ->
          ran (Extension.selectMultipleCommand e) (JsString.join "," selected)).
Proof.
  intros e w projDir stdout Hdir Hexec envs ran.
  destruct (findProjectDir_logs e w projDir Hdir) as [line Hfind].
  unfold ran, window, Extension.selectCommand, Extension.selectMultipleCommand,
    Extension.safeGetToxEnvs, Extension.getToxEnvs, catch, bind.
  rewrite Hfind, Hexec. cbn [ret]. fold envs. split.
  - intros selected Hpick Hne. rewrite Hpick.
    destruct selected; [contradiction|]. repeat split.
  - intros selected Hpick. rewrite Hpick. repeat split.
Qed.

Lemma X3_commands_run_the_pick_witness :
  sent (window (Extension.selectCommand
                  (Samples.workspaceEditor None (Some "lint") None))
          Samples.toxWindow)
  = [(2, "tox -e lint")].
Proof.
  refine (proj1 (proj2 (proj2
            (proj1 (X3_commands_run_the_pick
                      (Samples.workspaceEditor None (Some "lint") None)
                      Samples.toxWindow "/home/u/proj" Samples.toxOutput
                      eq_refl eq_refl)
               "lint" eq_refl _)))).
  discriminate.
Defined.

(** X4. The two commands do not read the [tox.cwd] setting: with any other
    setting they do the same.  On the sample workspace with the setting
    [sub], [findProjectDir] of utils.ts returns /home/u/proj/sub while the
    terminal of [selectCommand] is opened in /home/u/proj. *)
Theorem X4_commands_ignore_cwd_setting :
  forall (e : Editor) (cwd : option string) (w : Window),
    Extension.selectCommand (withCwd e cwd) w = Extension.selectCommand e w
    /\ Extension.selectMultipleCommand (withCwd e cwd) w
       = Extension.selectMultipleCommand e w
    /\ outcome (Utils.findProjectDir
                  (Samples.workspaceEditor (Some "sub") (Some "lint") None)) w
       = Returned "/home/u/proj/sub"
    /\ map Vscode.cwd
         (terminals
            (window (Extension.selectCommand
                       (Samples.workspaceEditor (Some "sub") (Some "lint") None))
               Samples.emptyWindow))
       = ["/home/u/proj"].
Proof.
  intros e cwd w. repeat split.
Qed.

(** ** The terminal provider: defaults and repeated calls *)

(** X5. When [getTerminal] is called without a directory, [findProjectDir]
    runs before the sessions are looked at: without a focused document the
    call throws and leaves the window as it was, also when a session of the
    requested name is open; with one it goes on as a call with the resolved
    directory, in the window after the log line.  A call without a name is
    a call with the name tox. *)
Theorem X5_getTerminal_defaults :
  forall (e : Editor) (name0 : option string) (w : Window),
    (activeTextEditor e = None ->
     Utils.getTerminal e None name0 w = (Thrown "No active editor found.", w))
    /\ (forall p w1,
          Utils.findProjectDir e w = (Returned p, w1) ->
          Utils.getTerminal e None name0 w
          = Utils.getTerminal e (Some p) name0 w1)
    /\ (forall dir,
          Utils.getTerminal e dir None w
          = Utils.getTerminal e dir (Some "tox") w).
Proof.
  intros e name0 w. split; [|split].
  - intros Hnone. unfold Utils.getTerminal, bind, Utils.findProjectDir.
    rewrite Hnone. reflexivity.
  - intros p w1 Hfind. unfold Utils.getTerminal, bind. rewrite Hfind.
    reflexivity.
  - intros dir. reflexivity.
Qed.

Lemma X5_getTerminal_defaults_witness :
  Utils.getTerminal Samples.noDocumentEditor None (Some "tox")
    Samples.toxWindow
  = (Thrown "No active editor found.", Samples.toxWindow)
  /\ outcome (Utils.getTerminal
                (Samples.workspaceEditor (Some "sub") None None) None None)
       Samples.emptyWindow
     = Returned {| handle := 0; name := "tox"; cwd := "/home/u/proj/sub" |}.
Proof.
  split.
  - apply (X5_getTerminal_defaults Samples.noDocumentEditor (Some "tox")
             Samples.toxWindow).
    reflexivity.
  - unfold outcome.
    rewrite (proj1 (proj2
               (X5_getTerminal_defaults
                  (Samples.workspaceEditor (Some "sub") None None) None
                  Samples.emptyWindow))
               "/home/u/proj/sub" _ eq_refl).
    reflexivity.
Defined.

Lemma getTerminal_found (e : Editor) (dir name0 : string) (w : Window)
    (t : Terminal) :
  find (fun terminal => name terminal =? name0) (terminals w) = Some t ->
  Utils.getTerminal e (Some dir) (Some name0) w = (Returned t, w).
Proof.
  intros Hfind. unfold Utils.getTerminal, bind, ret, getTerminals. cbn.
  rewrite Hfind. reflexivity.
Qed.

Lemma getTerminalEach_found (e : Editor) (name0 : string) (t : Terminal) :
  forall dirs w,
    find (fun terminal => name terminal =? name0) (terminals w) = Some t ->
    getTerminalEach e dirs name0 w = (Returned tt, w).
Proof.
  induction dirs as [|d dirs IH]; intros w Hfind; [reflexivity|].
  cbn [getTerminalEach]. unfold bind at 1.
  rewrite (getTerminal_found e d name0 w t Hfind). apply IH. exact Hfind.
Qed.

(** X6. However often [getTerminal] is called for one name, and with
    whatever directories, the registry gets one new session at most: none
    when a session of that name is open, and otherwise one, bound to the
    directory of the first call. *)
Theorem X6_getTerminal_creates_once :
  forall (e : Editor) (dirs : list string) (name0 : string) (w : Window),
    terminals (window (getTerminalEach e dirs name0) w)
    = match find (fun terminal => name terminal =? name0) (terminals w), dirs
      with
      | None, dir :: _ =>
          (terminals w
             ++ [ {| handle := nextHandle w; name := name0; cwd := dir |} ])%list
      | _, _ => terminals w
      end.
Proof.
  intros e dirs name0 w. unfold window.
  destruct (find (fun terminal => name terminal =? name0) (terminals w))
    as [t|] eqn:Hfind.
  - rewrite (getTerminalEach_found e name0 t dirs w Hfind). reflexivity.
  - destruct dirs as [|d dirs]; [reflexivity|].
    cbn [getTerminalEach]. unfold bind at 1.
    unfold Utils.getTerminal at 1. unfold bind, ret, getTerminals. cbn [fst snd].
    rewrite Hfind. unfold createTerminal.
    rewrite (getTerminalEach_found e name0
               {| handle := nextHandle w; name := name0; cwd := d |}).
    + reflexivity.
    + cbn [terminals]. apply find_first_named; [reflexivity|].
      intros t' Hin Hname. apply (find_none _ _ Hfind) in Hin.
      rewrite Hname, String.eqb_refl in Hin. discriminate Hin.
Qed.

(** ** The list of environments and the argument of tox *)

Lemma trimStart_allWhiteSpace (s : string) :
  allWhiteSpace s = true -> JsString.trimStart s = "".
Proof.
  induction s as [|c s IH]; [reflexivity|].
  cbn [allWhiteSpace JsString.trimStart]. intros H.
  apply andb_prop in H. destruct H as [Hc Hs]. rewrite Hc. apply IH. exact Hs.
Qed.

(** X8. The list of environments is never empty.  When tox prints nothing
    but white space, the list holds the empty string alone, so the quick
    pick offers one empty entry. *)
Theorem X8_envs_never_empty :
  forall (e : Editor) (projDir stdout : string) (w : Window),
    exec e "tox -a" projDir = Resolved stdout ->
    EOL e <> "" ->
    (exists env rest,
        outcome (Extension.getToxEnvs e projDir) w = Returned (env :: rest))
    /\ (allWhiteSpace stdout = true ->
        outcome (Extension.getToxEnvs e projDir) w = Returned [""]).
Proof.
  intros e projDir stdout w Hexec Heol.
  unfold outcome, Extension.getToxEnvs. rewrite Hexec. cbn [ret fst].
  unfold JsString.split. destruct (EOL e) as [|c sep]; [contradiction|].
  split.
  - pose proof (split_fuel_nonempty
                  (String.length (JsString.trim stdout)) (String c sep)
                  (JsString.trim stdout)) as Hne.
    destruct (JsString.split_fuel _ _ _) as [|env rest]; [contradiction|].
    exists env, rest. reflexivity.
  - intros Hws. unfold JsString.trim.
    rewrite (trimStart_allWhiteSpace stdout Hws). reflexivity.
Qed.

Lemma X8_envs_never_empty_witness :
  outcome (Extension.getToxEnvs
             (Samples.outputEditor Samples.lf (" " ++ Samples.lf)) "/home/u/proj")
    Samples.emptyWindow
  = Returned [""].
Proof.
  refine (proj2 (X8_envs_never_empty
                   (Samples.outputEditor Samples.lf (" " ++ Samples.lf))
                   "/home/u/proj" (" " ++ Samples.lf) Samples.emptyWindow
                   eq_refl _) eq_refl).
  discriminate.
Defined.

Lemma cut_comma_first (x r : string) :
  JsString.includes "," x = false ->
  JsString.cut "," (x ++ String "," r) = Some (x, r).
Proof.
  unfold JsString.includes.
  induction x as [|c x IH]; intros H; [reflexivity|].
  cbn [append]. cbn [JsString.cut JsString.startsWith] in H |- *.
  destruct (Ascii.eqb "," c && true); [discriminate H|].
  destruct (JsString.cut "," x) as [[b a]|]; [discriminate H|].
  rewrite (IH eq_refl). reflexivity.
Qed.

Lemma split_join_comma (envs : list string) :
  envs <> [] ->
  Forall (fun env => JsString.includes "," env = false) envs ->
  forall fuel,
    String.length (JsString.join "," envs) <= fuel ->
    JsString.split_fuel fuel "," (JsString.join "," envs) = envs.
Proof.
  induction envs as [|x envs IH]; intros Hne Hall fuel Hlen; [contradiction|].
  inversion Hall as [|? ? Hx Hrest]; subst.
  destruct envs as [|y envs].
  - cbn [JsString.join]. destruct fuel; [reflexivity|].
    cbn [JsString.split_fuel]. unfold JsString.includes in Hx.
    destruct (JsString.cut "," x) as [[? ?]|]; [discriminate Hx|reflexivity].
  - rewrite join_cons in * by discriminate.
    rewrite !length_append in Hlen. cbn [String.length] in Hlen.
    destruct fuel as [|fuel]; [lia|].
    cbn [JsString.split_fuel].
    change (x ++ "," ++ JsString.join "," (y :: envs))
      with (x ++ String "," (JsString.join "," (y :: envs))).
    rewrite (cut_comma_first x _ Hx).
    f_equal. apply IH; [discriminate|exact Hrest|lia].
Qed.

(** X9. The text [runTox] sends is "tox -e " followed by an argument from
    which the environments are read back: when one name at least is
    selected and no name holds a comma, splitting the argument at the commas
    gives the selected names, in order.  For no name the argument is
    empty. *)
Theorem X9_runTox_argument_round_trip :
  forall (envs : list string) (projDir : string) (w : Window),
    envs <> [] ->
    Forall (fun env => JsString.includes "," env = false) envs ->
    exists envArg,
      sent (window (Extension.runTox envs projDir) w)
      = (sent w ++ [(nextHandle w, ("tox -e " ++ envArg)%string)])%list
      /\ JsString.split "," envArg = envs
      /\ JsString.join "," [] = "".
Proof.
  intros envs projDir w Hne Hall.
  exists (JsString.join "," envs). unfold window. rewrite runTox_eq.
  split; [reflexivity|]. split; [|reflexivity].
  unfold JsString.split. apply split_join_comma; [exact Hne|exact Hall|].
  apply le_n.
Qed.

Lemma X9_runTox_argument_round_trip_witness :
  exists envArg,
    sent (window (Extension.runTox ["py39"; "lint"] "/home/u/proj")
            Samples.emptyWindow)
    = [(0, ("tox -e " ++ envArg)%string)]
    /\ JsString.split "," envArg = ["py39"; "lint"].
Proof.
  destruct (X9_runTox_argument_round_trip ["py39"; "lint"] "/home/u/proj"
              Samples.emptyWindow)
    as (envArg & Hsent & Hsplit & _).
  - discriminate.
  - repeat constructor.
  - exists envArg. split; [exact Hsent|exact Hsplit].
Defined.

(** ** Override templates the resolver handles as written *)

Lemma drop_append (p r : string) : JsString.drop (String.length p) (p ++ r) = r.
Proof. induction p as [|c p IH]; [destruct r; reflexivity|exact IH]. Qed.

Lemma cut_prefix (pat r : string) : JsString.cut pat (pat ++ r) = Some ("", r).
Proof.
  destruct (pat ++ r) as [|c s] eqn:He; cbn [JsString.cut];
    rewrite <- He, startsWith_append, drop_append; reflexivity.
Qed.

Lemma join_normalized (a b : string) : normalized (PosixPath.join a b).
Proof.
  destruct a, b; cbn [PosixPath.join];
    [reflexivity|apply normalize_normalized..].
Qed.

(** X10. With an override that starts with [${fileWorkspaceFolder}], a
    document with an absolute path whose directory holds no dollar resolves
    to that directory followed by the rest of the template, normalized:
    the workspace folder plays no part. *)
Theorem X10_fileWorkspaceFolder_template :
  forall (e : Editor) (w : Window) (doc : Uri) (f : WorkspaceFolder)
         (rest : string),
    activeTextEditor e = Some doc ->
    getWorkspaceFolder e doc = Some f ->
    tox_cwd e = Some ("${fileWorkspaceFolder}" ++ rest) ->
    PosixPath.isAbsolute (fsPath doc) = true ->
    JsString.includes "$" (PosixPath.dirname (fsPath doc)) = false ->
    outcome (Utils.findProjectDir e) w
    = Returned (PosixPath.normalize (PosixPath.dirname (fsPath doc) ++ rest)).
Proof.
  intros e w doc f rest Hdoc Hf Hcwd Habs Hplain.
  unfold outcome, Utils.findProjectDir. rewrite Hdoc, Hf, Hcwd.
  change (JsString.truthy ("${fileWorkspaceFolder}" ++ rest)) with true.
  cbv zeta iota.
  assert (Hkept : Utils.toxRootFolder ("${fileWorkspaceFolder}" ++ rest)
                    (fsPath (uri f)) (fsPath doc)
                  = PosixPath.dirname (fsPath doc) ++ rest).
  { unfold Utils.toxRootFolder, JsString.replace. cbv zeta.
    rewrite cut_prefix, getSubstitution_plain by exact Hplain. reflexivity. }
  rewrite Hkept.
  assert (Hdir : PosixPath.isAbsolute (PosixPath.dirname (fsPath doc) ++ rest)
                 = true).
  { pose proof (dirname_absolute (fsPath doc) Habs) as Hd.
    unfold PosixPath.isAbsolute in *.
    destruct (PosixPath.dirname (fsPath doc)); [discriminate Hd|exact Hd]. }
  rewrite Hdir. reflexivity.
Qed.

Lemma X10_fileWorkspaceFolder_template_witness :
  outcome (Utils.findProjectDir
             (Samples.workspaceEditor (Some "${fileWorkspaceFolder}/..")
                None None))
    Samples.emptyWindow
  = Returned "/home/u/proj".
Proof.
  apply (X10_fileWorkspaceFolder_template
           (Samples.workspaceEditor (Some "${fileWorkspaceFolder}/..") None None)
           Samples.emptyWindow {| fsPath := "/home/u/proj/tests/test_a.py" |}
           Samples.projectRoot "/.." eq_refl eq_refl eq_refl eq_refl eq_refl).
Defined.

(** X11. With an override in which [${fileWorkspaceFolder}] does not occur,
    the resolver returns the override normalized when it is absolute,
    whatever the document and the workspace folder are, and otherwise
    [path.join] of the workspace folder's path and the override: the
    normalization at the end changes nothing then. *)
Theorem X11_plain_override :
  forall (e : Editor) (w : Window) (doc : Uri) (f : WorkspaceFolder)
         (cwd : string),
    activeTextEditor e = Some doc ->
    getWorkspaceFolder e doc = Some f ->
    tox_cwd e = Some cwd ->
    cwd <> "" ->
    JsString.includes "${fileWorkspaceFolder}" cwd = false ->
    outcome (Utils.findProjectDir e) w
    = Returned (if PosixPath.isAbsolute cwd then PosixPath.normalize cwd
                else PosixPath.join (fsPath (uri f)) cwd).
Proof.
  intros e w doc f cwd Hdoc Hf Hcwd Hne Hin.
  unfold outcome, Utils.findProjectDir. rewrite Hdoc, Hf, Hcwd.
  assert (Htruthy : JsString.truthy cwd = true)
    by (destruct cwd; [contradiction|reflexivity]).
  rewrite Htruthy. cbv zeta.
  assert (Hkept : Utils.toxRootFolder cwd (fsPath (uri f)) (fsPath doc) = cwd).
  { unfold Utils.toxRootFolder, JsString.replace. cbv zeta.
    unfold JsString.includes in Hin.
    destruct (JsString.cut "${fileWorkspaceFolder}" cwd) as [[? ?]|];
      [discriminate Hin|reflexivity]. }
  rewrite Hkept.
  destruct (PosixPath.isAbsolute cwd); cbn [negb fst bind console_log ret].
  - reflexivity.
  - unfold bind, console_log, ret. cbn [fst].
    rewrite (join_normalized (fsPath (uri f)) cwd). reflexivity.
Qed.

Lemma X11_plain_override_witness :
  outcome (Utils.findProjectDir
             (Samples.workspaceEditor (Some "../lib") None None))
    Samples.emptyWindow
  = Returned "/home/u/lib"
  /\ outcome (Utils.findProjectDir
                (Samples.workspaceEditor (Some "/opt//tox/") None None))
       Samples.emptyWindow
     = Returned "/opt/tox/".
Proof.
  split.
  - apply (X11_plain_override
             (Samples.workspaceEditor (Some "../lib") None None)
             Samples.emptyWindow {| fsPath := "/home/u/proj/tests/test_a.py" |}
             Samples.projectRoot "../lib" eq_refl eq_refl eq_refl).
    + discriminate.
    + reflexivity.
  - apply (X11_plain_override
             (Samples.workspaceEditor (Some "/opt//tox/") None None)
             Samples.emptyWindow {| fsPath := "/home/u/proj/tests/test_a.py" |}
             Samples.projectRoot "/opt//tox/" eq_refl eq_refl eq_refl).
    + discriminate.
    + reflexivity.
Defined.

(** ** The collection of test items *)

Section Collection.

Import TestTree.

Lemma get_add_same (item : TestItem) (l : list TestItem) :
  get (id item) (add item l) = Some item.
Proof.
  unfold get. induction l as [|t r IH]; cbn.
  - rewrite String.eqb_refl. reflexivity.
  - destruct (id t =? id item) eqn:He; cbn.
    + rewrite String.eqb_refl. reflexivity.
    + rewrite He. exact IH.
Qed.

Lemma get_add_other (i : string) (item : TestItem) (l : list TestItem) :
  i <> id item -> get i (add item l) = get i l.
Proof.
  intros Hne. assert (Hf : (id item =? i) = false)
    by (apply String.eqb_neq; congruence).
  unfold get. induction l as [|t r IH]; cbn.
  - rewrite Hf. reflexivity.
  - destruct (String.eqb_spec (id t) (id item)) as [He|He]; cbn.
    + rewrite Hf, He, Hf. reflexivity.
    + rewrite IH. reflexivity.
Qed.

Lemma get_id (i : string) (l : list TestItem) (t : TestItem) :
  get i l = Some t -> id t = i /\ In t l.
Proof.
  unfold get. intros H. apply find_some in H. destruct H as [Hin He].
  apply String.eqb_eq in He. split; assumption.
Qed.

Lemma get_none (i : string) (l : list TestItem) :
  get i l = None <-> ~ In i (map id l).
Proof.
  unfold get. induction l as [|t r IH]; cbn; [tauto|].
  destruct (String.eqb_spec (id t) i) as [He|He].
  - split; [discriminate|]. intros H. exfalso. apply H. left. exact He.
  - rewrite IH. tauto.
Qed.

Lemma ids_add (item : TestItem) (l : list TestItem) :
  map id (add item l)
  = match get (id item) l with
    | Some _ => map id l
    | None => (map id l ++ [id item])%list
    end.
Proof.
  unfold get. induction l as [|t r IH]; cbn; [reflexivity|].
  destruct (String.eqb_spec (id t) (id item)) as [He|He]; cbn.
  - rewrite He. reflexivity.
  - rewrite IH. destruct (find _ r); reflexivity.
Qed.

Lemma ids_assign (item : TestItem) (l : list TestItem) :
  map id (assign item l) = map id l.
Proof.
  unfold assign. induction l as [|t r IH]; cbn; [reflexivity|].
  rewrite IH. destruct (String.eqb_spec (id t) (id item)) as [He|He];
    [rewrite He|]; reflexivity.
Qed.

Lemma get_assign (i : string) (item : TestItem) (l : list TestItem) :
  get i (assign item l)
  = match get i l with
    | Some t => Some (if id t =? id item then item else t)
    | None => None
    end.
Proof.
  unfold get, assign. induction l as [|t r IH]; cbn; [reflexivity|].
  destruct (id t =? id item) eqn:He; cbn.
  - replace (id item =? i) with (id t =? i)
      by (apply String.eqb_eq in He; rewrite He; reflexivity).
    destruct (id t =? i); [rewrite He; reflexivity|exact IH].
  - destruct (id t =? i); [rewrite He; reflexivity|exact IH].
Qed.

Lemma get_delete_same (i : string) (l : list TestItem) :
  get i (delete i l) = None.
Proof.
  unfold get, delete. induction l as [|t r IH]; cbn; [reflexivity|].
  destruct (id t =? i) eqn:He; cbn; [exact IH|]. rewrite He. exact IH.
Qed.

Lemma get_delete_other (i j : string) (l : list TestItem) :
  j <> i -> get j (delete i l) = get j l.
Proof.
  intros Hne. unfold get, delete. induction l as [|t r IH]; cbn; [reflexivity|].
  destruct (String.eqb_spec (id t) i) as [He|He]; cbn.
  - rewrite IH. destruct (String.eqb_spec (id t) j); [congruence|reflexivity].
  - rewrite IH. reflexivity.
Qed.

Lemma ids_delete_incl (i : string) (l : list TestItem) :
  forall x, In x (map id (delete i l)) -> In x (map id l).
Proof.
  unfold delete. induction l as [|t r IH]; cbn; [tauto|].
  intros x. destruct (negb (id t =? i)); cbn; intuition.
Qed.

Lemma uniqueIds_delete (i : string) (l : list TestItem) :
  NoDup (map id l) -> NoDup (map id (delete i l)).
Proof.
  induction l as [|t r IH]; cbn; [auto|].
  intros H. inversion H as [|? ? Hnotin Hr]; subst.
  destruct (negb (id t =? i)); cbn; [|apply IH; exact Hr].
  constructor; [|apply IH; exact Hr].
  intros Hin. apply Hnotin. apply (ids_delete_incl i r). exact Hin.
Qed.

Lemma uniqueIds_add (item : TestItem) (l : list TestItem) :
  NoDup (map id l) -> NoDup (map id (add item l)).
Proof.
  intros H. rewrite ids_add.
  destruct (get (id item) l) eqn:Hg; [exact H|].
  apply get_none in Hg.
  apply NoDup_app; [exact H|repeat constructor; intros []|].
  intros x Hx [Hy|[]]. subst x. contradiction.
Qed.

End Collection.

(** ** File items *)

Lemma join_last (sep : string) (l : list string) :
  l <> [] ->
  exists pre,
    JsString.join sep l = pre ++ last l ""
    /\ (pre = "" \/ exists q, pre = q ++ sep).
Proof.
  induction l as [|x l IH]; intros Hne; [contradiction|].
  destruct l as [|y l].
  - exists "". split; [reflexivity|left; reflexivity].
  - destruct (IH ltac:(discriminate)) as (pre & Hj & Hpre).
    exists (x ++ sep ++ pre). split.
    + rewrite join_cons by discriminate. rewrite Hj.
      rewrite !append_assoc. reflexivity.
    + right. destruct Hpre as [->|[q ->]].
      * exists x. rewrite append_empty_r. reflexivity.
      * exists (x ++ sep ++ q). rewrite !append_assoc. reflexivity.
Qed.

(** The label of a file item is the text of the path after its last
    slash. *)
Lemma file_label (p : string) :
  JsString.includes "/" (TestTree.pop (JsString.split "/" p)) = false
  /\ exists pre,
       p = pre ++ TestTree.pop (JsString.split "/" p)
       /\ (pre = "" \/ exists q, pre = q ++ "/").
Proof.
  unfold JsString.split, TestTree.pop.
  pose proof (split_fuel_nonempty (String.length p) "/" p) as Hne.
  split.
  - pose proof (split_fuel_pieces "/" ltac:(discriminate)
                  (String.length p) p (le_n _)) as Hall.
    rewrite Forall_forall in Hall. apply Hall.
    destruct (exists_last Hne) as (l' & a & Heq). rewrite Heq.
    rewrite last_last. apply in_or_app. right. left. reflexivity.
  - destruct (join_last "/" _ Hne) as (pre & Hj & Hpre).
    rewrite join_split_fuel in Hj. exists pre. split; assumption.
Qed.

Section FileItems.

Import TestTree.

Lemma getOrCreateFile_spec (u : Uri) (c : Controller) :
  get (toString u) (items (snd (getOrCreateFile u c)))
  = Some (fst (getOrCreateFile u c))
  /\ id (fst (getOrCreateFile u c)) = toString u
  /\ (forall i, i <> toString u ->
        get i (items (snd (getOrCreateFile u c))) = get i (items c))
  /\ watchers (snd (getOrCreateFile u c)) = watchers c
  /\ (uniqueIds c -> uniqueIds (snd (getOrCreateFile u c)))
  /\ (forall i, In i (map id (items (snd (getOrCreateFile u c)))) ->
        In i (map id (items c)) \/ i = toString u).
Proof.
  unfold getOrCreateFile, uniqueIds.
  destruct (get (toString u) (items c)) as [existing|] eqn:Hg;
    cbn [fst snd items watchers].
  - repeat split; auto. apply (get_id _ _ _ Hg).
  - split; [|split; [|split; [|split; [|split]]]].
    + rewrite get_assign.
      change (toString u)
        with (id (createTestItem (toString u)
                    (pop (JsString.split "/" (path u))) (Some u))) at 1.
      rewrite get_add_same. cbn. rewrite String.eqb_refl. reflexivity.
    + reflexivity.
    + intros i Hi. rewrite get_assign, get_add_other by exact Hi.
      destruct (get i (items c)) as [t|] eqn:Hgi; [|reflexivity].
      apply get_id in Hgi. destruct Hgi as [Hid _]. cbn [id createTestItem].
      assert (He : (id t =? toString u) = false)
        by (apply String.eqb_neq; congruence).
      rewrite He. reflexivity.
    + reflexivity.
    + intros Hu. rewrite ids_assign. apply uniqueIds_add. exact Hu.
    + intros i. rewrite ids_assign, ids_add. cbn [id createTestItem].
      rewrite Hg. intros Hin. apply in_app_or in Hin.
      destruct Hin as [Hin|[Hin|[]]]; [left; exact Hin|right; congruence].
Qed.

(** X12. [getOrCreateFile] returns the item the collection holds under the
    URI's string: a second call returns the same item and changes nothing,
    and the items under other ids stay.  An item it creates has the URI's
    string as id, the URI, [canResolveChildren] set, and as label the text of
    the path after its last slash. *)
Theorem X12_getOrCreateFile_lookup :
  forall (u : Uri) (c : Controller),
    let file := fst (getOrCreateFile u c) in
    let c' := snd (getOrCreateFile u c) in
    get (toString u) (items c') = Some file
    /\ getOrCreateFile u c' = (file, c')
    /\ (forall i, i <> toString u -> get i (items c') = get i (items c))
    /\ (get (toString u) (items c) = None ->
        id file = toString u
        /\ itemUri file = Some u
        /\ canResolveChildren file = true
        /\ JsString.includes "/" (label file) = false
        /\ exists pre,
             path u = pre ++ label file
             /\ (pre = "" \/ exists q, pre = q ++ "/")).
Proof.
  intros u c file c'.
  destruct (getOrCreateFile_spec u c) as (Hget & Hid & Hother & _).
  fold file c' in Hget, Hid, Hother.
  split; [exact Hget|]. split; [|split; [exact Hother|]].
  - unfold getOrCreateFile at 1. rewrite Hget. reflexivity.
  - intros Hnone. unfold file, getOrCreateFile. rewrite Hnone.
    cbn [fst id itemUri canResolveChildren label createTestItem].
    repeat split. apply file_label. apply file_label.
Qed.

End FileItems.

(** ** Documents and watcher events *)

Section TreeEvents.

Import TestTree.

Lemma endsWith_suffix (pre suffix : string) :
  endsWith (pre ++ suffix) suffix = true.
Proof.
  unfold endsWith. rewrite length_append.
  replace (String.length pre + String.length suffix - String.length suffix)
    with (String.length pre) by lia.
  rewrite drop_append.
  replace (Nat.leb (String.length suffix)
             (String.length pre + String.length suffix)) with true
    by (symmetry; apply Nat.leb_le; lia).
  rewrite <- (append_empty_r suffix) at 2. apply startsWith_append.
Qed.

Lemma getOrCreateFile_keeps (u : Uri) (c : Controller) (i : string)
    (t : TestItem) :
  get i (items c) = Some t ->
  get i (items (snd (getOrCreateFile u c))) = Some t.
Proof.
  intros Hg. destruct (String.eqb_spec i (toString u)) as [He|He].
  - unfold getOrCreateFile. rewrite <- He, Hg. exact Hg.
  - destruct (getOrCreateFile_spec u c) as (_ & _ & Hother & _).
    rewrite (Hother i He). exact Hg.
Qed.

(** X13. A document is parsed when its scheme is file and its path ends
    with tox.ini, so also for a file named detox.ini: the collection then
    holds the file's item and an item cowsay with the file's URI, and the
    other items stay.  Any other document changes nothing.  The text of the
    document is not read. *)
Theorem X13_parseTestsInDocument :
  forall (e : TextDocument) (c : Controller) (pre : string),
    scheme (uri e) = "file" ->
    path (uri e) = pre ++ "tox.ini" ->
    let file := fst (getOrCreateFile (uri e) c) in
    let c' := parseTestsInDocument e None c in
    get "cowsay" (items c')
    = Some (createTestItem "cowsay" "cowsay" (itemUri file))
    /\ (toString (uri e) <> "cowsay" ->
        get (toString (uri e)) (items c') = Some file)
    /\ (forall i, i <> "cowsay" -> i <> toString (uri e) ->
          get i (items c') = get i (items c))
    /\ (forall e2, uri e2 = uri e ->
          parseTestsInDocument e2 None c = c')
    /\ (forall e2 c2,
          scheme (uri e2) <> "file"
          \/ endsWith (path (uri e2)) "tox.ini" = false ->
          parseTestsInDocument e2 None c2 = c2).
Proof.
  intros e c pre Hscheme Hpath file c'.
  assert (Hparse : c' = parseTestsInFileContents file (Some (getText e))
                          (snd (getOrCreateFile (uri e) c))).
  { unfold c', parseTestsInDocument. cbv zeta.
    rewrite Hscheme, Hpath, endsWith_suffix. cbn [String.eqb andb].
    unfold file. destruct (getOrCreateFile (uri e) c). reflexivity. }
  destruct (getOrCreateFile_spec (uri e) c) as (Hget & _ & Hother & _).
  split; [|split; [|split; [|split]]].
  - rewrite Hparse. unfold parseTestsInFileContents. cbn [items].
    apply (get_add_same (createTestItem "cowsay" "cowsay" (itemUri file))).
  - intros Hne. rewrite Hparse. unfold parseTestsInFileContents. cbn [items].
    rewrite get_add_other by exact Hne. exact Hget.
  - intros i Hc Hu. rewrite Hparse. unfold parseTestsInFileContents.
    cbn [items]. rewrite get_add_other by exact Hc. apply Hother. exact Hu.
  - intros e2 He2. unfold c', parseTestsInDocument. cbv zeta. rewrite He2.
    destruct ((scheme (uri e) =? "file") && endsWith (path (uri e)) "tox.ini");
      [|reflexivity].
    destruct (getOrCreateFile (uri e) c). reflexivity.
  - intros e2 c2 [Hs|Hp]; unfold parseTestsInDocument; cbv zeta.
    + apply String.eqb_neq in Hs. rewrite Hs. reflexivity.
    + rewrite Hp, andb_false_r. reflexivity.
Qed.

Lemma X13_parseTestsInDocument_witness :
  map id
    (items
       (parseTestsInDocument
          {| uri := {| scheme := "file"; path := "/p/detox.ini";
                       toString := "file:///p/detox.ini" |};
             getText := "[tox]" |}
          None {| items := []; watchers := [] |}))
  = ["file:///p/detox.ini"; "cowsay"]
  /\ get "cowsay"
       (items
          (parseTestsInDocument
             {| uri := {| scheme := "file"; path := "/p/detox.ini";
                          toString := "file:///p/detox.ini" |};
                getText := "[tox]" |}
             None {| items := []; watchers := [] |}))
     = Some (createTestItem "cowsay" "cowsay"
               (Some {| scheme := "file"; path := "/p/detox.ini";
                        toString := "file:///p/detox.ini" |})).
Proof.
  split; [reflexivity|].
  apply (X13_parseTestsInDocument
           {| uri := {| scheme := "file"; path := "/p/detox.ini";
                        toString := "file:///p/detox.ini" |};
              getText := "[tox]" |}
           {| items := []; watchers := [] |} "/p/de" eq_refl eq_refl).
Defined.

(** X15. After the delete event of a watcher the collection holds no item
    under the URI's string and the items under other ids stay.  A create
    event followed by the delete event of a file that had no item leaves
    every lookup as it was; after a change event and the delete event the
    item cowsay made for the file is still there. *)
Theorem X15_delete_event :
  forall (u : Uri) (c : Controller),
    get (toString u) (items (onWatcherEvent (DidDelete u) c)) = None
    /\ (forall i, i <> toString u ->
          get i (items (onWatcherEvent (DidDelete u) c)) = get i (items c))
    /\ (get (toString u) (items c) = None ->
        forall i,
          get i (items (onWatcherEvent (DidDelete u)
                          (onWatcherEvent (DidCreate u) c)))
          = get i (items c))
    /\ (get (toString u) (items c) = None -> toString u <> "cowsay" ->
        get "cowsay" (items (onWatcherEvent (DidDelete u)
                               (onWatcherEvent (DidChange u) c)))
        = Some (createTestItem "cowsay" "cowsay" (Some u))).
Proof.
  intros u c. cbn [onWatcherEvent items].
  split; [apply get_delete_same|].
  split; [intros i Hi; apply get_delete_other; exact Hi|].
  destruct (getOrCreateFile_spec u c) as (_ & _ & Hother & _).
  split.
  - intros Hnone i. destruct (String.eqb_spec i (toString u)) as [He|He].
    + subst i. rewrite get_delete_same, Hnone. reflexivity.
    + rewrite get_delete_other by exact He. apply Hother. exact He.
  - intros Hnone Hne.
    rewrite get_delete_other by congruence.
    unfold getOrCreateFile. rewrite Hnone.
    unfold parseTestsInFileContents. cbn [items itemUri createTestItem].
    apply (get_add_same (createTestItem "cowsay" "cowsay" (Some u))).
Qed.

End TreeEvents.

(** ** Discovery and the invariant of the tree *)

Section Discovery.

Import TestTree.

Variable ws : Workspace.

Lemma fold_getOrCreateFile (files : list Uri) :
  forall c,
    let c' := fold_left (fun c file => snd (getOrCreateFile file c)) files c in
    watchers c' = watchers c
    /\ (uniqueIds c -> uniqueIds c')
    /\ (forall i t, get i (items c) = Some t -> get i (items c') = Some t)
    /\ (forall u, In u files ->
          exists t, get (toString u) (items c') = Some t /\ id t = toString u)
    /\ (forall i, In i (map id (items c')) ->
          In i (map id (items c)) \/ exists u, In u files /\ i = toString u).
Proof.
  induction files as [|u files IH]; intros c; cbn [fold_left].
  - repeat split; auto. intros u [].
  - destruct (getOrCreateFile_spec u c) as (Hget & Hid & _ & Hw & Hu & Hids).
    destruct (IH (snd (getOrCreateFile u c))) as (Hw' & Hu' & Hk' & Hf' & Hi').
    cbv zeta in *. split; [congruence|]. split; [auto|].
    split; [|split].
    + intros i t Hg. apply Hk'. apply getOrCreateFile_keeps. exact Hg.
    + intros u' [->|Hin].
      * exists (fst (getOrCreateFile u' c)). split; [|exact Hid].
        apply Hk'. exact Hget.
      * apply Hf'. exact Hin.
    + intros i Hin. destruct (Hi' i Hin) as [Hold|(u' & Hu'in & ->)].
      * destruct (Hids i Hold) as [Hc| ->]; [left; exact Hc|].
        right. exists u. split; [left; reflexivity|reflexivity].
      * right. exists u'. split; [right; exact Hu'in|reflexivity].
Qed.

Lemma discoverFolders_spec (folders : list WorkspaceFolder) :
  forall c,
    let r := discoverFolders ws folders c in
    fst r = map (fun f => {| base := f; pattern := "tox.ini" |}) folders
    /\ watchers (snd r) = (watchers c ++ fst r)%list
    /\ (uniqueIds c -> uniqueIds (snd r))
    /\ (forall i t, get i (items c) = Some t -> get i (items (snd r)) = Some t)
    /\ (forall f u, In f folders -> foundBy ws f u ->
          exists t, get (toString u) (items (snd r)) = Some t
                    /\ id t = toString u)
    /\ (forall i, In i (map id (items (snd r))) ->
          In i (map id (items c))
          \/ exists f u, In f folders /\ foundBy ws f u /\ i = toString u).
Proof.
  induction folders as [|f folders IH]; intros c.
  - cbn. rewrite app_nil_r. repeat split; auto. intros f u [].
  - cbn [discoverFolders]. unfold discoverFolder. cbv zeta.
    set (c0 := {| items := items c;
                  watchers := (watchers c ++ [ {| base := f; pattern := "tox.ini" |} ])%list |}).
    pose proof (fold_getOrCreateFile
                  (findFiles ws {| base := f; pattern := "tox.ini" |}) c0)
      as (Hw1 & Hu1 & Hk1 & Hf1 & Hi1).
    set (c1 := fold_left (fun c file => snd (getOrCreateFile file c))
                 (findFiles ws {| base := f; pattern := "tox.ini" |}) c0) in *.
    destruct (IH c1) as (Hr & Hw & Hu & Hk & Hf & Hi).
    destruct (discoverFolders ws folders c1) as [wl c2].
    cbn [fst snd] in *.
    split; [cbn; rewrite Hr; reflexivity|].
    split; [rewrite Hw, Hw1; unfold c0; cbn [watchers];
            rewrite <- app_assoc; reflexivity|].
    split; [intros H; apply Hu, Hu1; exact H|].
    split; [intros i t Hg; apply Hk, Hk1; exact Hg|].
    split.
    + intros f' u [->|Hin] Hfound.
      * destruct (Hf1 u Hfound) as (t & Hg & Hid).
        exists t. split; [apply Hk; exact Hg|exact Hid].
      * apply (Hf f' u Hin Hfound).
    + intros i Hin. destruct (Hi i Hin) as [Hold|(f' & u & Hf'in & Hfu & ->)].
      * destruct (Hi1 i Hold) as [Hc|(u & Hu'in & ->)]; [left; exact Hc|].
        right. exists f, u. split; [left; reflexivity|split; [exact Hu'in|reflexivity]].
      * right. exists f', u. split; [right; exact Hf'in|split; [exact Hfu|reflexivity]].
Qed.

End Discovery.

Section Tree.

Import TestTree.

(** X16. Without workspace folders [discoverAllFilesInWorkspace] returns no
    watcher and changes nothing.  With folders it returns one watcher per
    folder, for the pattern tox.ini, and adds them to the watchers there
    are, so every call adds as many again; afterwards every file a search
    found has an item under its URI's string, the items there were are
    kept, and every id is an old one or the string of a file found. *)
Theorem X16_discoverAllFilesInWorkspace :
  forall (ws : Workspace) (c : Controller),
    (workspaceFolders ws = None ->
     discoverAllFilesInWorkspace ws c = ([], c))
    /\ (forall folders,
          workspaceFolders ws = Some folders ->
          let r := discoverAllFilesInWorkspace ws c in
          fst r = map (fun f => {| base := f; pattern := "tox.ini" |}) folders
          /\ watchers (snd r) = (watchers c ++ fst r)%list
          /\ (forall i t, get i (items c) = Some t ->
                get i (items (snd r)) = Some t)
          /\ (forall f u, In f folders -> foundBy ws f u ->
                exists t, get (toString u) (items (snd r)) = Some t
                          /\ id t = toString u)
          /\ (forall i, In i (map id (items (snd r))) ->
                In i (map id (items c))
                \/ exists f u, In f folders /\ foundBy ws f u /\ i = toString u)
          /\ length (watchers (snd (discoverAllFilesInWorkspace ws (snd r))))
             = length (watchers c) + 2 * length folders).
Proof.
  intros ws c. split.
  - intros Hnone. unfold discoverAllFilesInWorkspace. rewrite Hnone.
    reflexivity.
  - intros folders Hsome. unfold discoverAllFilesInWorkspace.
    rewrite Hsome. cbv zeta.
    destruct (discoverFolders_spec ws folders c)
      as (Hr & Hw & _ & Hk & Hf & Hi).
    cbv zeta in *. repeat (split; [assumption|]).
    destruct (discoverFolders_spec ws folders
                (snd (discoverFolders ws folders c))) as (Hr2 & Hw2 & _).
    cbv zeta in *. rewrite Hw2, Hw, Hr2, Hr, !length_app, !length_map. lia.
Qed.

Lemma treeStep_uniqueIds (ws : Workspace) (c : Controller) (ev : TreeEvent) :
  uniqueIds c -> uniqueIds (treeStep ws c ev).
Proof.
  intros Hu.
  assert (Hparse : forall file contents c0,
             uniqueIds c0 ->
             uniqueIds (parseTestsInFileContents file contents c0)).
  { intros file contents c0 H. unfold uniqueIds, parseTestsInFileContents.
    cbn [items]. apply uniqueIds_add. exact H. }
  assert (Hdoc : forall e c0,
             uniqueIds c0 -> uniqueIds (parseTestsInDocument e None c0)).
  { intros e c0 H. unfold parseTestsInDocument. cbv zeta.
    destruct ((scheme (uri e) =? "file") && endsWith (path (uri e)) "tox.ini");
      [|exact H].
    destruct (getOrCreateFile_spec (uri e) c0) as (_ & _ & _ & _ & Hu0 & _).
    destruct (getOrCreateFile (uri e) c0) as [file c1]. cbn [snd] in Hu0.
    apply Hparse. apply Hu0. exact H. }
  destruct ev as [e|e|[u|u|u]|[test|]]; cbn [treeStep].
  - apply Hdoc. exact Hu.
  - apply Hdoc. exact Hu.
  - cbn [onWatcherEvent].
    destruct (getOrCreateFile_spec u c) as (_ & _ & _ & _ & Hu0 & _). auto.
  - cbn [onWatcherEvent].
    destruct (getOrCreateFile_spec u c) as (_ & _ & _ & _ & Hu0 & _).
    destruct (getOrCreateFile u c) as [file c1]. cbn [snd] in Hu0.
    apply Hparse. auto.
  - cbn [onWatcherEvent]. unfold uniqueIds. cbn [items].
    apply uniqueIds_delete. exact Hu.
  - cbn [resolveHandler]. apply Hparse. exact Hu.
  - cbn [resolveHandler]. unfold discoverAllFilesInWorkspace.
    destruct (workspaceFolders ws) as [folders|]; [|exact Hu].
    destruct (discoverFolders_spec ws folders c) as (_ & _ & Hu0 & _).
    auto.
Qed.

Lemma unique_id_once (i : string) (l : list TestItem) :
  NoDup (map id l) -> length (filter (fun t => id t =? i) l) <= 1.
Proof.
  induction l as [|t r IH]; cbn; [lia|].
  intros H. inversion H as [|? ? Hnotin Hr]; subst.
  destruct (String.eqb_spec (id t) i) as [He|He]; [|apply IH; exact Hr].
  cbn. replace (filter (fun t0 => id t0 =? i) r) with (@nil TestItem);
    [cbn; lia|].
  symmetry. clear IH H Hr. induction r as [|x r IHr]; [reflexivity|].
  cbn in *. destruct (String.eqb_spec (id x) i) as [Hx|Hx].
  - exfalso. apply Hnotin. left. congruence.
  - apply IHr. intros Hin. apply Hnotin. right. exact Hin.
Qed.

(** X14. Whatever documents are opened and changed, whatever the watchers
    report and whatever is resolved, no two items of the collection get the
    same id: in particular the tree holds one item cowsay at most, however
    many tox.ini files are parsed. *)
Theorem X14_tree_ids_stay_unique :
  forall (ws : Workspace) (events : list TreeEvent) (c : Controller),
    uniqueIds c ->
    uniqueIds (fold_left (treeStep ws) events c)
    /\ length (filter (fun t => id t =? "cowsay")
                 (items (fold_left (treeStep ws) events c))) <= 1.
Proof.
  intros ws events c Hu.
  assert (Hall : uniqueIds (fold_left (treeStep ws) events c)).
  { revert c Hu. induction events as [|ev events IH]; intros c Hu; [exact Hu|].
    cbn [fold_left]. apply IH. apply treeStep_uniqueIds. exact Hu. }
  split; [exact Hall|]. apply unique_id_once. exact Hall.
Qed.

Lemma X14_tree_ids_stay_unique_witness :
  uniqueIds
    (fold_left (treeStep projectWorkspace)
       [Resolve None; Opened (fileDocument "/home/u/proj/tox.ini");
        Opened (fileDocument "/srv/app/tox.ini");
        Changed (fileDocument "/home/u/proj/tox.ini");
        Watched (DidDelete (uri (fileDocument "/srv/app/tox.ini")))]
       emptyController)
  /\ map id
       (items
          (fold_left (treeStep projectWorkspace)
             [Resolve None; Opened (fileDocument "/home/u/proj/tox.ini");
              Opened (fileDocument "/srv/app/tox.ini");
              Changed (fileDocument "/home/u/proj/tox.ini");
              Watched (DidDelete (uri (fileDocument "/srv/app/tox.ini")))]
             emptyController))
     = ["file:///home/u/proj/tox.ini"; "cowsay"].
Proof.
  split; [|reflexivity].
  apply (X14_tree_ids_stay_unique projectWorkspace
           [Resolve None; Opened (fileDocument "/home/u/proj/tox.ini");
            Opened (fileDocument "/srv/app/tox.ini");
            Changed (fileDocument "/home/u/proj/tox.ini");
            Watched (DidDelete (uri (fileDocument "/srv/app/tox.ini")))]
           emptyController).
  unfold uniqueIds. cbn. constructor.
Defined.

End Tree.
